(** * lab-control-lib: device link, acquisition engine, metadata fan-out
      and scan ledger

    A shallow embedding of the parts of [base.py], [camera.py] and
    [manager.py] that the specification talks about, together with the
    properties that hold (or fail) on them.

    Conventions of the embedding:
    - a Python object is a record, a method is a function from the record
      to an outcome and the record after the call;
    - a raised exception is the [Raise] outcome of the [res] type;
    - a [dict] is a [gmap] (or an association list where the iteration
      order is observable), [bytes] are [list byte];
    - a thread is a step function of the shared record; the interleaving
      of threads is an explicit list of events. *)

From stdpp Require Import gmap strings list.
From Stdlib Require Import ZArith QArith.
From Stdlib.Strings Require Import Ascii Byte.

#[local] Open Scope string_scope.
#[local] Open Scope Z_scope.
#[local] Open Scope list_scope.

(** ** Python outcomes, logging and a few builtins *)

Inductive exn :=
  | RuntimeError (msg : string)
  | TypeError
  | ValueError
  | AttributeError
  | KeyError
  | OSError
  | FileNotFoundError
  | DeviceException (msg : string).

Inductive res (A : Type) :=
  | Ok (a : A)
  | Raise (e : exn).
Arguments Ok {A} a.
Arguments Raise {A} e.

#[global] Instance res_bind : MBind res := fun A B k r =>
  match r with
  | Ok a => k a
  | Raise e => Raise e
  end.

Inductive level := DEBUG | INFO | WARNING | ERROR | CRITICAL.

Definition log_record : Type := level * string.

#[global] Instance level_eq_dec : EqDecision level.
Proof. solve_decision. Defined.

(** Values that end up in metadata dictionaries. *)
Inductive pyval :=
  | PyNone
  | PyStr (s : string)
  | PyInt (z : Z)
  | PyBool (b : bool).

(** [repr]-like rendering of an optional string inside an f-string. *)
Definition fmt_opt (o : option string) : string :=
  match o with
  | Some s => s
  | None => "None"
  end.

(** [posixpath.join a b]. *)
Definition endswith_sep (s : string) : bool :=
  match last (String.list_ascii_of_string s) with
  | Some c => bool_decide (c = "/"%char)
  | None => false
  end.

Definition os_path_join (a b : string) : string :=
  if String.prefix "/" b then b
  else if bool_decide (a = "") || endswith_sep a then a +:+ b
  else a +:+ "/" +:+ b.

(** [int(s)] on an ASCII string: surrounding white space, an optional
    sign, then decimal digits that may be separated by single
    underscores.  [None] stands for [ValueError]. *)
Definition is_digit (c : ascii) : bool :=
  (48 <=? nat_of_ascii c)%nat && (nat_of_ascii c <=? 57)%nat.

Definition digit_value (c : ascii) : Z := Z.of_nat (nat_of_ascii c) - 48.

Definition is_space (c : ascii) : bool :=
  let n := nat_of_ascii c in
  (n =? 32)%nat || ((9 <=? n)%nat && (n <=? 13)%nat)
  || ((28 <=? n)%nat && (n <=? 31)%nat).

Fixpoint digits_value (acc : Z) (after_sep : bool) (l : list ascii)
  : option Z :=
  match l with
  | [] => if after_sep then None else Some acc
  | c :: l' =>
      if is_digit c then digits_value (10 * acc + digit_value c) false l'
      else if bool_decide (c = "_"%char)
           then (if after_sep then None else digits_value acc true l')
           else None
  end.

Fixpoint lstrip (l : list ascii) : list ascii :=
  match l with
  | c :: l' => if is_space c then lstrip l' else l
  | [] => []
  end.

Definition strip (l : list ascii) : list ascii :=
  rev (lstrip (rev (lstrip l))).

Definition py_int (s : string) : option Z :=
  match strip (String.list_ascii_of_string s) with
  | c :: l =>
      if bool_decide (c = "-"%char) then Z.opp <$> digits_value 0 true l
      else if bool_decide (c = "+"%char) then digits_value 0 true l
      else digits_value 0 true (c :: l)
  | [] => None
  end.

(** [max(l, default=d)]. *)
Definition py_max_default (d : Z) (l : list Z) : Z :=
  match l with
  | [] => d
  | x :: l' => foldl Z.max x l'
  end.

(** The scan number a directory name carries according to the on-disk
    layout: its first six characters, if they are six decimal digits,
    read as a number. *)
Definition decimal (l : list ascii) : Z :=
  foldl (fun acc c => 10 * acc + digit_value c) 0 l.

Definition six_digit_prefix (nm : string) : option Z :=
  let l := take 6 (String.list_ascii_of_string nm) in
  if bool_decide (length l = 6%nat) && forallb is_digit l
  then Some (decimal l) else None.

(** ** The file system, as far as the scan ledger looks at it

    A directory is known by its path and lists its entries by name,
    each flagged as a directory or not ([os.scandir], [DirEntry.is_dir]). *)

Record dirent := { name : string; is_dir : bool }.

Definition FS : Type := gmap string (list dirent).

Definition os_scandir (fs : FS) (p : string) : res (list dirent) :=
  match fs !! p with
  | Some l => Ok l
  | None => Raise FileNotFoundError
  end.

Definition os_path_exists (fs : FS) (p : string) : bool :=
  bool_decide (is_Some (fs !! p)).

(** ** [DriverBase]: the metadata calls of a driver *)

Module DriverBase.

Section GetMeta.
(** The driver object the registered calls close over. *)
Context {Self : Type}.

(** [self.metacalls]: each entry is a callable without arguments,
    which reads the driver and may raise. *)
Variable metacalls : gmap string (Self -> res pyval).
Variable self : Self.

(** The body of the [for key in metakeys] loop, threaded through the
    dictionary [meta] under construction. *)
Fixpoint get_meta_loop (metakeys : list string) (meta : gmap string pyval)
  : res (gmap string pyval) :=
  match metakeys with
  | [] => Ok meta
  | key :: rest =>
      match metacalls !! key with
      | None => get_meta_loop rest (<[key := PyStr "unknown"]> meta)
      | Some call =>
          v ← call self;
          get_meta_loop rest (<[key := v]> meta)
      end
  end.

(** The keys [get_meta] goes through: those asked for, or
    [self.metacalls.keys()] when [metakeys] is [None]. *)
Definition requested (metakeys : option (list string)) : list string :=
  match metakeys with
  | None => (map_to_list metacalls).*1
  | Some ks => ks
  end.

Definition get_meta (metakeys : option (list string))
  : res (gmap string pyval) :=
  get_meta_loop (requested metakeys) ∅.

(** What one key contributes: ['unknown'] without a registered call,
    the outcome of the call otherwise. *)
Definition entry_of (key : string) : res pyval :=
  match metacalls !! key with
  | None => Ok (PyStr "unknown")
  | Some call => call self
  end.
End GetMeta.

End DriverBase.

(** ** [Manager]: scan ledger and metadata fan-out coordinator *)

Module Manager.

(** Allowed characters for experiment and investigation names. *)
Definition _VALID_CHAR : string :=
  "abcdefghijklmnopqrstuvwxyzABCDEFGHIJKLMNOPQRSTUVWXYZ0123456789_-:".

(** The dictionary [{'meta': meta, 'time': dt}] a fetch returns; the
    elapsed time is a float in the source, a rational here. *)
Record fetched := { meta : gmap string pyval; time : Q }.

(** A [Future] running [fetch_meta name] on its own thread: still running
    ([done()] is false), or finished with the value [result()] returns. *)
Inductive future :=
  | Running (source : string)
  | Finished (result : option fetched).

(** The persistent configuration ([self.config]), with the two keys of
    [DEFAULT_CONFIG] that the ledger uses. *)
Record Config := {
  cfg_investigation : option string;
  cfg_experiment : option string
}.

(** A pending request: source name to the future fetching it, in the
    insertion order of the dictionary. *)
Definition request : Type := list (string * nat).

Record state := {
  config : Config;
  _running : bool;
  counter : Z;
  (** [self.requests]; [None] is a valid request ID. *)
  requests : gmap (option string) request;
  (** the keys of [self.clients], in insertion order *)
  clients : list string;
  (** the [Future] objects created so far, by identity *)
  threads : gmap nat future;
  next_thread : nat;
  fs : FS;
  logger : list log_record
}.

Definition set_config (c : Config) (s : state) : state :=
  {| config := c; _running := _running s; counter := counter s;
     requests := requests s; clients := clients s; threads := threads s;
     next_thread := next_thread s; fs := fs s; logger := logger s |}.

Definition set_requests (r : gmap (option string) request) (s : state)
  : state :=
  {| config := config s; _running := _running s; counter := counter s;
     requests := r; clients := clients s; threads := threads s;
     next_thread := next_thread s; fs := fs s; logger := logger s |}.

Definition set_threads (t : gmap nat future) (n : nat) (s : state) : state :=
  {| config := config s; _running := _running s; counter := counter s;
     requests := requests s; clients := clients s; threads := t;
     next_thread := n; fs := fs s; logger := logger s |}.

Definition set_fs (f : FS) (s : state) : state :=
  {| config := config s; _running := _running s; counter := counter s;
     requests := requests s; clients := clients s; threads := threads s;
     next_thread := next_thread s; fs := f; logger := logger s |}.

(** [self.logger.<level>(msg)] *)
Definition log (l : level) (msg : string) (s : state) : state :=
  {| config := config s; _running := _running s; counter := counter s;
     requests := requests s; clients := clients s; threads := threads s;
     next_thread := next_thread s; fs := fs s;
     logger := logger s ++ [(l, msg)] |}.

(** *** Scan ledger *)

(** The [investigation] property: [self.config.get('investigation')]. *)
Definition investigation (s : state) : option string :=
  cfg_investigation (config s).

(** The [experiment] property: [self.config['experiment']]. *)
Definition experiment (s : state) : option string :=
  cfg_experiment (config s).

Definition _valid_name (v : string) : bool :=
  forallb (fun c => bool_decide (c ∈ String.list_ascii_of_string _VALID_CHAR))
          (String.list_ascii_of_string v).

(** The [path] property.  The source builds a [RuntimeError] when a name
    is unset but does not raise it; [os.path.join] then raises
    [TypeError] on the [None] argument. *)
Definition path (s : state) : res string :=
  match investigation s, experiment s with
  | Some i, Some e => Ok (os_path_join i e)
  | _, _ => Raise TypeError
  end.

(** [[int(f.name[:6]) for f in entries if f.is_dir()]] *)
Fixpoint scan_numbers (entries : list dirent) : res (list Z) :=
  match entries with
  | [] => Ok []
  | f :: rest =>
      if is_dir f then
        match py_int (String.substring 0 6 (name f)) with
        | Some n => ns ← scan_numbers rest; Ok (n :: ns)
        | None => Raise ValueError
        end
      else scan_numbers rest
  end.

Definition dq : string := String (ascii_of_nat 34) "".

Section Ledger.
(** The root of the data tree, a constant of the package. *)
Variable data_path : string.
(** [os.makedirs(p, exist_ok=True)] on the file system. *)
Variable os_makedirs : FS -> string -> FS.

Definition next_scan (s : state) : res (option Z) :=
  match path s with
  | Raise (RuntimeError _) => Ok None
  | Raise e => Raise e
  | Ok p =>
      let exp_path := os_path_join data_path p in
      entries ← os_scandir (fs s) exp_path;
      numbers ← scan_numbers entries;
      Ok (Some (py_max_default (-1) numbers + 1))
  end.

Definition _check_path (s : state) : res unit * state :=
  match path s with
  | Raise (RuntimeError msg) => (Ok (), log WARNING msg s)
  | Raise e => (Raise e, s)
  | Ok p =>
      let full_path := os_path_join data_path p in
      if os_path_exists (fs s) full_path
      then (Ok (), log INFO ("Path " +:+ full_path +:+ " selected (exists).") s)
      else (Ok (), log INFO ("Created path " +:+ full_path +:+ ".")
                       (set_fs (os_makedirs (fs s) full_path) s))
  end.

(** The setter of [investigation]. *)
Definition set_investigation (v : option string) (s : state)
  : res unit * state :=
  match v with
  | None =>
      (Raise (RuntimeError
         ("Investigation should not be set to " +:+ dq +:+ "None" +:+ dq)), s)
  | Some v =>
      if _running s then
        (Raise (RuntimeError
           "Investigation cannot be modified while a scan is running."), s)
      else if negb (_valid_name v) then
        (Raise (RuntimeError ("Invalid investigation name: " +:+ v)), s)
      else
        let s1 := set_config {| cfg_investigation := Some v;
                                cfg_experiment := experiment s |} s in
        (Ok (), set_config {| cfg_investigation := investigation s1;
                              cfg_experiment := None |} s1)
  end.

(** The setter of [experiment]. *)
Definition set_experiment (v : option string) (s : state)
  : res unit * state :=
  match v with
  | None =>
      (Raise (RuntimeError
         ("Experiment should not be set to " +:+ dq +:+ "None" +:+ dq)), s)
  | Some v =>
      if _running s then
        (Raise (RuntimeError
           "Experiment cannot be modified while a scan is running."), s)
      else match investigation s with
      | None => (Raise (RuntimeError "Investigation is not set."), s)
      | Some _ =>
          if negb (_valid_name v) then
            (Raise (RuntimeError ("Invalid experiment name: " +:+ v)), s)
          else
            _check_path
              (set_config {| cfg_investigation := investigation s;
                             cfg_experiment := Some v |} s)
      end
  end.
End Ledger.

(** *** Metadata fan-out *)

(** [Future(self.fetch_meta, (name,))]: a new thread object. *)
Definition spawn (source : string) (s : state) : nat * state :=
  let h := next_thread s in
  (h, set_threads (<[h := Running source]> (threads s)) (S h) s).

(** The dictionary comprehension of [request_meta]. *)
Fixpoint spawn_all (sources : list string) (s : state) : request * state :=
  match sources with
  | [] => ([], s)
  | source :: rest =>
      let '(h, s1) := spawn source s in
      let '(r, s2) := spawn_all rest s1 in
      ((source, h) :: r, s2)
  end.

Definition overwrite_warning (request_ID : option string) : log_record :=
  (WARNING, "Requests ID " +:+ fmt_opt request_ID
            +:+ " has not been claimed and will be overwritten.").

Definition request_meta (request_ID : option string)
    (exclude_list : list string) (s : state) : res unit * state :=
  let s1 :=
    match requests s !! request_ID with
    | Some _ => log (overwrite_warning request_ID).1
                    (overwrite_warning request_ID).2 s
    | None => s
    end in
  let '(r, s2) :=
    spawn_all (filter (fun source => source ∉ exclude_list) (clients s1))
              s1 in
  (Ok (), set_requests (<[request_ID := r]> (requests s2)) s2).

(** [fetch_meta], at the moment the remote [get_meta] call has answered
    with [reply] after [dt] seconds. *)
Definition fetch_meta (source : string) (reply : gmap string pyval) (dt : Q)
    (s : state) : option fetched * state :=
  if bool_decide (source ∈ clients s) then
    (Some {| meta := reply; time := dt |},
     log DEBUG (source +:+ " : metadata collection completed") s)
  else
    (None, log WARNING ("Client " +:+ source +:+ " not present.") s).

(** The thread behind future [h] runs to completion. *)
Definition finish (h : nat) (reply : gmap string pyval) (dt : Q) (s : state)
  : state :=
  match threads s !! h with
  | Some (Running source) =>
      let '(r, s1) := fetch_meta source reply dt s in
      set_threads (<[h := Finished r]> (threads s1)) (next_thread s1) s1
  | _ => s
  end.

Definition late_warning (source : string) : log_record :=
  (WARNING, source +:+ ": metadata collection not completed in time.").

Definition unknown_error (request_ID : option string) : log_record :=
  (ERROR, "Unknown request ID " +:+ fmt_opt request_ID +:+ "!").

(** The [for name, future in request.items()] loop of [return_meta]. *)
Fixpoint collect (req : request) (acc : gmap string (gmap string pyval))
    (times : gmap string Q) (s : state)
  : gmap string (gmap string pyval) * state :=
  match req with
  | [] => (acc, s)
  | (source, h) :: rest =>
      match threads s !! h with
      | Some (Finished result) =>
          match result with
          | Some r =>
              collect rest (<[source := meta r]> acc)
                      (<[source := time r]> times) s
          | None => collect rest acc times s
          end
      | _ =>
          collect rest acc times
                  (log (late_warning source).1 (late_warning source).2 s)
      end
  end.

(** [return_meta].  [self.requests.pop(request_ID, ...)] yields the
    [Ellipsis] object for an unknown ID; after the error is logged the
    loop calls [.items()] on it, which raises [AttributeError]. *)
Definition return_meta (request_ID : option string) (s : state)
  : res (gmap string (gmap string pyval)) * state :=
  match requests s !! request_ID with
  | None =>
      (Raise AttributeError,
       log (unknown_error request_ID).1 (unknown_error request_ID).2 s)
  | Some req =>
      let s1 := set_requests (delete request_ID (requests s)) s in
      let '(acc, s2) := collect req ∅ ∅ s1 in
      (Ok acc, s2)
  end.

(** The manager right after construction, seen from the fan-out: only
    itself among the clients, no request, no thread. *)
Definition init (c : Config) (f : FS) : state :=
  {| config := c; _running := false; counter := 0; requests := ∅;
     clients := ["manager"]; threads := ∅; next_thread := 0%nat;
     fs := f; logger := [] |}.

(** The metadata calls the manager registers for itself. *)
Definition metacalls (data_path : string)
  : gmap string (state -> res pyval) :=
  <["investigation" := fun s : state =>
      Ok (from_option PyStr PyNone (investigation s))]>
  (<["experiment" := fun s : state =>
      Ok (from_option PyStr PyNone (experiment s))]>
  (<["last_scan" := fun s : state =>
      n ← next_scan data_path s;
      Ok (match n with
          | Some n => if (n =? 0)%Z then PyNone else PyInt n
          | None => PyNone
          end)]> ∅)).

End Manager.

(** ** [SocketDriverBase]: the device link *)

Module SocketDriverBase.

Definition bytes : Type := list byte.

#[global] Instance byte_eq_decision : EqDecision byte := Byte.byte_eq_dec.

(** [b.endswith(EOL)] *)
Definition endswith (b EOL : bytes) : bool := bool_decide (EOL `suffix_of` b).

(** The device socket: open or closed, and what has been written to it. *)
Record socket := { closed : bool; sent : list bytes }.

(** [_send_all] on a [bytes] message. *)
Definition _send_all (sock : socket) (msg : bytes) : res socket :=
  if closed sock then Raise OSError
  else Ok {| closed := false; sent := sent sock ++ [msg] |}.

(** [_recv_all].  [chunks] are the values the successive [sock.recv(1024)]
    calls return; the result is the assembled data and the chunks left
    unread, or [None] when [recv] is called with nothing left to return
    (the call blocks). *)
Fixpoint _recv_all_loop (EOL ret : bytes) (chunks : list bytes)
  : option (bytes * list bytes) :=
  if endswith ret EOL then Some (ret, chunks)
  else match chunks with
       | [] => None
       | c :: rest => _recv_all_loop EOL (ret ++ c) rest
       end.

Definition _recv_all (EOL : bytes) (chunks : list bytes)
  : option (bytes * list bytes) :=
  match chunks with
  | [] => None
  | ret :: rest =>
      if bool_decide (ret = []) then Some (ret, rest)
      else _recv_all_loop EOL ret rest
  end.

Record state := {
  device_sock : socket;
  shutdown_requested : bool;
  (** buffer in which incoming data is stored *)
  recv_buffer : bytes;
  (** the [threading.Event] telling that data has arrived *)
  recv_flag : bool;
  (** whether the thread running [_listen_recv] is alive *)
  recv_thread : bool;
  connected : bool;
  initialized : bool;
  logger : list log_record
}.

Definition log (l : level) (msg : string) (s : state) : state :=
  {| device_sock := device_sock s; shutdown_requested := shutdown_requested s;
     recv_buffer := recv_buffer s; recv_flag := recv_flag s;
     recv_thread := recv_thread s; connected := connected s;
     initialized := initialized s; logger := logger s ++ [(l, msg)] |}.

Definition set_recv (buffer : bytes) (flag : bool) (s : state) : state :=
  {| device_sock := device_sock s; shutdown_requested := shutdown_requested s;
     recv_buffer := buffer; recv_flag := flag;
     recv_thread := recv_thread s; connected := connected s;
     initialized := initialized s; logger := logger s |}.

Definition set_device_sock (sock : socket) (s : state) : state :=
  {| device_sock := sock; shutdown_requested := shutdown_requested s;
     recv_buffer := recv_buffer s; recv_flag := recv_flag s;
     recv_thread := recv_thread s; connected := connected s;
     initialized := initialized s; logger := logger s |}.

Definition set_recv_thread (alive : bool) (s : state) : state :=
  {| device_sock := device_sock s; shutdown_requested := shutdown_requested s;
     recv_buffer := recv_buffer s; recv_flag := recv_flag s;
     recv_thread := alive; connected := connected s;
     initialized := initialized s; logger := logger s |}.

(** The link once [connect_device] has succeeded and [init_device] has
    run: empty buffer, flag cleared, receiver thread started. *)
Definition connected_link : state :=
  {| device_sock := {| closed := false; sent := [] |};
     shutdown_requested := false; recv_buffer := []; recv_flag := false;
     recv_thread := true; connected := true; initialized := true;
     logger := [] |}.

(** What [select] reports in one pass of the receiver: the chunks that
    can be read if the socket is readable, and whether it is in an
    exceptional condition. *)
Record select_result := {
  rlist : option (list bytes);
  elist : bool
}.

Section Link.
(** End of API sequence. *)
Variable EOL : bytes.

(** One pass of the [while True] loop of [_listen_recv].  The pass is
    [None] when the thread has already ended or blocks inside [recv];
    a thread that breaks out of the loop is no longer alive.  [select]
    on a closed socket raises, which ends the thread as well. *)
Definition _listen_recv (sel : select_result) (s : state) : option state :=
  if negb (recv_thread s) then None
  else if closed (device_sock s) then Some (set_recv_thread false s)
  else if elist sel then
    Some (set_recv_thread false
            (log CRITICAL "Exceptional event with device socket." s))
  else
    s1 ← match rlist sel with
         | Some chunks =>
             (* with self._lock *)
             '(d, _) ← _recv_all EOL chunks;
             Some (set_recv (recv_buffer s ++ d) true s)
         | None => Some s
         end;
    if shutdown_requested s1 then Some (set_recv_thread false s1)
    else Some s1.

(** [device_cmd] up to the wait: the connection check and the first
    critical section. *)
Definition device_cmd_send (cmd : bytes) (s : state) : res unit * state :=
  if negb (connected s) then (Raise (RuntimeError "Device not connected."), s)
  else
    let s1 := if negb (initialized s)
              then log INFO "Device not (yet?) initialized." s else s in
    (* with self._lock: clear the flag, pass the command to the device *)
    let s2 := set_recv (recv_buffer s1) false s1 in
    match _send_all (device_sock s2) cmd with
    | Ok sock => (Ok (), set_device_sock sock s2)
    | Raise e => (Raise e, s2)
    end.

(** [device_cmd] from the wait on: enabled once the flag is set, the
    second critical section returns the buffer and empties it. *)
Definition device_cmd_reply (s : state) : option (bytes * state) :=
  if recv_flag s then Some (recv_buffer s, set_recv [] (recv_flag s) s)
  else None.

Definition close_device (s : state) : state :=
  {| device_sock := {| closed := true; sent := sent (device_sock s) |};
     shutdown_requested := shutdown_requested s;
     recv_buffer := recv_buffer s; recv_flag := recv_flag s;
     recv_thread := recv_thread s; connected := false;
     initialized := false; logger := logger s |}.

Definition shutdown (s : state) : state :=
  if negb (connected s) then s
  else
    log INFO "Shutting down connection to driver."
      {| device_sock := device_sock s; shutdown_requested := true;
         recv_buffer := recv_buffer s; recv_flag := recv_flag s;
         recv_thread := recv_thread s; connected := connected s;
         initialized := initialized s; logger := logger s |}.

Definition stop (s : state) : res unit * state :=
  if negb (connected s) then (Raise (RuntimeError "Not connected."), s)
  else (Ok (), close_device s).

(** What the threads of a link do, one atomic step each: the caller's
    two halves of [device_cmd], a pass of the receiver, and the two
    ways of closing. *)
Inductive event :=
  | Cmd (cmd : bytes)
  | Reply
  | Listen (sel : select_result)
  | Shutdown
  | CloseDevice.

(** Runs a schedule; collects the replies [device_cmd] returns.  [None]
    when an event of the schedule cannot happen where it stands. *)
Fixpoint exec (evs : list event) (s : state) : option (list bytes * state) :=
  match evs with
  | [] => Some ([], s)
  | Cmd cmd :: rest =>
      match device_cmd_send cmd s with
      | (Ok _, s1) => exec rest s1
      | (Raise _, _) => None
      end
  | Reply :: rest =>
      '(reply, s1) ← device_cmd_reply s;
      '(replies, s2) ← exec rest s1;
      Some (reply :: replies, s2)
  | Listen sel :: rest => s1 ← _listen_recv sel s; exec rest s1
  | Shutdown :: rest => exec rest (shutdown s)
  | CloseDevice :: rest => exec rest (close_device s)
  end.

(** A receiver pass in which the socket is readable and [recv] returns
    [chunks]. *)
Definition arrival (chunks : list bytes) : event :=
  Listen {| rlist := Some chunks; elist := false |}.

(** The data a receiver pass appends to the buffer. *)
Definition received (chunks : list bytes) : bytes :=
  match _recv_all EOL chunks with
  | Some (d, _) => d
  | None => []
  end.

(** The data a run of receiver passes appends to the buffer. *)
Definition received_all (passes : list (list bytes)) : bytes :=
  concat (map received passes).

(** Two commands issued one after the other: [c1] is sent, the passes
    [during1] of the receiver run, the reply is taken; the passes
    [between] run; [c2] is sent, the passes [during2] run, the reply is
    taken. *)
Definition two_commands (c1 c2 : bytes)
    (during1 between during2 : list (list bytes)) : list event :=
  Cmd c1 :: map arrival during1 ++ Reply :: map arrival between
  ++ Cmd c2 :: map arrival during2 ++ [Reply].

(** The link is up: connected, socket open, receiver running and not
    asked to stop. *)
Definition live (s : state) : Prop :=
  connected s = true /\ closed (device_sock s) = false /\
  recv_thread s = true /\ shutdown_requested s = false.

(** The reading of "no leftover bytes" on such a run: the reply to
    [c2] is exactly the data received after [c2] was sent. *)
Definition no_leftover (c1 c2 : bytes)
    (during1 between during2 : list (list bytes)) (s : state) : Prop :=
  exists reply1 s',
    exec (two_commands c1 c2 during1 between during2) s
    = Some ([reply1; received_all during2], s').
End Link.

(** [str.encode()] on ASCII text. *)
Definition encode (s : string) : bytes :=
  map byte_of_ascii (String.list_ascii_of_string s).

End SocketDriverBase.

(** ** [CameraBase]: the acquisition engine

    The device-specific hooks ([_arm], [_disarm], [_rearm], [_trigger],
    [_readout]) are recorded as calls and assumed to return; the frame a
    readout returns is identified by its rank among the readouts.  The
    two sinks are the lists of [store] calls they receive.  The content
    of the metadata dictionaries, the metadata thread and the log lines
    are left out.

    Threads: [arm] starts a thread running [acquisition_loop]; the state
    counts the live ones.  A pass of the loop body is one atomic step, and
    so is each call of the control thread up to the point where it waits.
    The one-second wait of the loop returns at once when a trigger is
    pending and times out otherwise. *)

Module CameraBase.

Inductive device_op := DArm | DDisarm | DRearm | DTrigger | DReadout.

#[global] Instance device_op_eq_dec : EqDecision device_op.
Proof. solve_decision. Defined.

(** The two values the [file_format] setter lets through. *)
Inductive format := hdf5 | tiff.

Record settings := {
  counter : Z;
  do_broadcast : bool;
  file_format : format;
  file_prefix : string;
  save_path : string;
  exposure_time : Q;
  exposure_number : Z
}.

(** The scan ledger as the engine sees it through its client: the scan
    path ([None] when no scan is running), the file name template of the
    scan and the shared frame counter. *)
Record ledger := {
  scan_path : option string;
  _base_file_name : string;
  ledger_counter : Z
}.

Record state := {
  armed : bool;
  rolling : bool;
  in_scan : bool;
  auto_armed : bool;
  end_acquisition : bool;
  (** the [threading.Event] objects *)
  do_acquire : bool;
  acquire_done : bool;
  grab_metadata : bool;
  (** persistent settings and device parameters *)
  config : settings;
  (** current target file name *)
  filename : option string;
  _scan_path : option string;
  (** the scan ledger the engine talks to *)
  _experiment : ledger;
  (** number of live threads running [acquisition_loop] *)
  loop_threads : nat;
  (** calls of the device-specific hooks, oldest first *)
  device : list device_op;
  (** [file_writer.store] calls: file name and frame, oldest first *)
  file_writer : list (option string * nat);
  (** [file_streamer.store] calls: frame, oldest first *)
  file_streamer : list nat
}.

Definition set_armed (v : bool) (s : state) : state :=
  Build_state v (rolling s) (in_scan s) (auto_armed s) (end_acquisition s)
    (do_acquire s) (acquire_done s) (grab_metadata s) (config s) (filename s)
    (_scan_path s) (_experiment s) (loop_threads s) (device s) (file_writer s)
    (file_streamer s).

Definition set_rolling (v : bool) (s : state) : state :=
  Build_state (armed s) v (in_scan s) (auto_armed s) (end_acquisition s)
    (do_acquire s) (acquire_done s) (grab_metadata s) (config s) (filename s)
    (_scan_path s) (_experiment s) (loop_threads s) (device s) (file_writer s)
    (file_streamer s).

Definition set_in_scan (v : bool) (s : state) : state :=
  Build_state (armed s) (rolling s) v (auto_armed s) (end_acquisition s)
    (do_acquire s) (acquire_done s) (grab_metadata s) (config s) (filename s)
    (_scan_path s) (_experiment s) (loop_threads s) (device s) (file_writer s)
    (file_streamer s).

Definition set_auto_armed (v : bool) (s : state) : state :=
  Build_state (armed s) (rolling s) (in_scan s) v (end_acquisition s)
    (do_acquire s) (acquire_done s) (grab_metadata s) (config s) (filename s)
    (_scan_path s) (_experiment s) (loop_threads s) (device s) (file_writer s)
    (file_streamer s).

Definition set_end_acquisition (v : bool) (s : state) : state :=
  Build_state (armed s) (rolling s) (in_scan s) (auto_armed s) v (do_acquire
    s) (acquire_done s) (grab_metadata s) (config s) (filename s) (_scan_path
    s) (_experiment s) (loop_threads s) (device s) (file_writer s)
    (file_streamer s).

Definition set_do_acquire (v : bool) (s : state) : state :=
  Build_state (armed s) (rolling s) (in_scan s) (auto_armed s)
    (end_acquisition s) v (acquire_done s) (grab_metadata s) (config s)
    (filename s) (_scan_path s) (_experiment s) (loop_threads s) (device s)
    (file_writer s) (file_streamer s).

Definition set_acquire_done (v : bool) (s : state) : state :=
  Build_state (armed s) (rolling s) (in_scan s) (auto_armed s)
    (end_acquisition s) (do_acquire s) v (grab_metadata s) (config s)
    (filename s) (_scan_path s) (_experiment s) (loop_threads s) (device s)
    (file_writer s) (file_streamer s).

Definition set_grab_metadata (v : bool) (s : state) : state :=
  Build_state (armed s) (rolling s) (in_scan s) (auto_armed s)
    (end_acquisition s) (do_acquire s) (acquire_done s) v (config s) (filename
    s) (_scan_path s) (_experiment s) (loop_threads s) (device s) (file_writer
    s) (file_streamer s).

Definition set_config (v : settings) (s : state) : state :=
  Build_state (armed s) (rolling s) (in_scan s) (auto_armed s)
    (end_acquisition s) (do_acquire s) (acquire_done s) (grab_metadata s) v
    (filename s) (_scan_path s) (_experiment s) (loop_threads s) (device s)
    (file_writer s) (file_streamer s).

Definition set_filename (v : option string) (s : state) : state :=
  Build_state (armed s) (rolling s) (in_scan s) (auto_armed s)
    (end_acquisition s) (do_acquire s) (acquire_done s) (grab_metadata s)
    (config s) v (_scan_path s) (_experiment s) (loop_threads s) (device s)
    (file_writer s) (file_streamer s).

Definition set_scan_path (v : option string) (s : state) : state :=
  Build_state (armed s) (rolling s) (in_scan s) (auto_armed s)
    (end_acquisition s) (do_acquire s) (acquire_done s) (grab_metadata s)
    (config s) (filename s) v (_experiment s) (loop_threads s) (device s)
    (file_writer s) (file_streamer s).

Definition set_experiment (v : ledger) (s : state) : state :=
  Build_state (armed s) (rolling s) (in_scan s) (auto_armed s)
    (end_acquisition s) (do_acquire s) (acquire_done s) (grab_metadata s)
    (config s) (filename s) (_scan_path s) v (loop_threads s) (device s)
    (file_writer s) (file_streamer s).

Definition set_loop_threads (v : nat) (s : state) : state :=
  Build_state (armed s) (rolling s) (in_scan s) (auto_armed s)
    (end_acquisition s) (do_acquire s) (acquire_done s) (grab_metadata s)
    (config s) (filename s) (_scan_path s) (_experiment s) v (device s)
    (file_writer s) (file_streamer s).

Definition set_device (v : list device_op) (s : state) : state :=
  Build_state (armed s) (rolling s) (in_scan s) (auto_armed s)
    (end_acquisition s) (do_acquire s) (acquire_done s) (grab_metadata s)
    (config s) (filename s) (_scan_path s) (_experiment s) (loop_threads s) v
    (file_writer s) (file_streamer s).

Definition set_file_writer (v : list (option string * nat)) (s : state) : state :=
  Build_state (armed s) (rolling s) (in_scan s) (auto_armed s)
    (end_acquisition s) (do_acquire s) (acquire_done s) (grab_metadata s)
    (config s) (filename s) (_scan_path s) (_experiment s) (loop_threads s)
    (device s) v (file_streamer s).

Definition set_file_streamer (v : list nat) (s : state) : state :=
  Build_state (armed s) (rolling s) (in_scan s) (auto_armed s)
    (end_acquisition s) (do_acquire s) (acquire_done s) (grab_metadata s)
    (config s) (filename s) (_scan_path s) (_experiment s) (loop_threads s)
    (device s) (file_writer s) v.

Definition set_counter (v : Z) (c : settings) : settings :=
  {| counter := v; do_broadcast := do_broadcast c;
     file_format := file_format c; file_prefix := file_prefix c;
     save_path := save_path c; exposure_time := exposure_time c;
     exposure_number := exposure_number c |}.

Definition set_do_broadcast (v : bool) (c : settings) : settings :=
  {| counter := counter c; do_broadcast := v;
     file_format := file_format c; file_prefix := file_prefix c;
     save_path := save_path c; exposure_time := exposure_time c;
     exposure_number := exposure_number c |}.

Definition set_exposure_time (v : Q) (c : settings) : settings :=
  {| counter := counter c; do_broadcast := do_broadcast c;
     file_format := file_format c; file_prefix := file_prefix c;
     save_path := save_path c; exposure_time := v;
     exposure_number := exposure_number c |}.

Definition set_exposure_number (v : Z) (c : settings) : settings :=
  {| counter := counter c; do_broadcast := do_broadcast c;
     file_format := file_format c; file_prefix := file_prefix c;
     save_path := save_path c; exposure_time := exposure_time c;
     exposure_number := v |}.

(** A call of a device-specific hook. *)
Definition call (op : device_op) (s : state) : state :=
  set_device (device s ++ [op]) s.

(** The frame the next [_readout] returns. *)
Definition next_frame (s : state) : nat :=
  length (filter (fun op => op = DReadout) (device s)).

Definition DEFAULT_FPS : Q := 5.
Definition MAX_FPS : Q := 5.

(** The engine after [__init__]. *)
Definition init (c : settings) (l : ledger) : state :=
  {| armed := false; rolling := false; in_scan := false;
     auto_armed := false; end_acquisition := false; do_acquire := false;
     acquire_done := false; grab_metadata := false; config := c;
     filename := None; _scan_path := None; _experiment := l;
     loop_threads := 0%nat; device := []; file_writer := [];
     file_streamer := [] |}.

Section Engine.
Variable BASE_PATH : string.
(** [prefix.format(n)], assumed to return. *)
Variable str_format : string -> Z -> string.

(** [next_prefix] of the ledger. *)
Definition next_prefix (l : ledger) : res string * ledger :=
  match scan_path l with
  | None => (Raise (RuntimeError "No scan currently running"), l)
  | Some _ =>
      (Ok (str_format (_base_file_name l) (ledger_counter l)),
       {| scan_path := scan_path l; _base_file_name := _base_file_name l;
          ledger_counter := ledger_counter l + 1 |})
  end.

Definition _build_filename (prefix : string) (path : option string)
    (s : state) : res string :=
  let prefix := str_format prefix (counter (config s)) in
  match path with
  | None => Raise TypeError
  | Some path =>
      let full_file_prefix :=
        os_path_join (os_path_join BASE_PATH path) prefix in
      match file_format (config s) with
      | hdf5 => Ok (full_file_prefix +:+ ".h5")
      | tiff => Ok (full_file_prefix +:+ ".tif")
      end
  end.

(** [arm]: starts one more thread running [acquisition_loop]. *)
Definition arm (exp_time : option Q) (exp_num : option Z) (s : state)
  : state :=
  let s1 :=
    match exp_time with
    | Some t => if Qeq_bool t (exposure_time (config s)) then s
                else set_config (set_exposure_time t (config s)) s
    | None => s
    end in
  let s2 :=
    match exp_num with
    | Some n => if n =? exposure_number (config s1) then s1
                else set_config (set_exposure_number n (config s1)) s1
    | None => s1
    end in
  let scan_path := scan_path (_experiment s2) in
  let s3 := set_in_scan (bool_decide (scan_path <> None)) s2 in
  let s4 := set_scan_path scan_path s3 in
  let s5 := call DArm s4 in
  let s6 := set_loop_threads (S (loop_threads s5)) s5 in
  set_armed true s6.

Definition disarm (s : state) : state :=
  let s1 := set_end_acquisition true s in
  let s2 := call DDisarm s1 in
  set_armed false (set_in_scan false s2).

(** [snap] up to the wait for the end of the acquisition. *)
Definition snap_begin (exp_time : option Q) (exp_num : option Z)
    (s : state) : res unit * state :=
  let s1 := if negb (armed s)
            then arm exp_time exp_num (set_auto_armed true s) else s in
  let named :=
    if in_scan s1 then
      match next_prefix (_experiment s1) with
      | (Ok prefix, l) =>
          let s2 := set_experiment l s1 in
          match _build_filename prefix (_scan_path s2) s2 with
          | Ok f => (Ok (), set_filename (Some f) s2)
          | Raise e => (Raise e, s2)
          end
      | (Raise e, l) => (Raise e, set_experiment l s1)
      end
    else
      let s2 := set_config (set_counter (counter (config s1) + 1)
                                        (config s1)) s1 in
      match _build_filename (file_prefix (config s2))
                            (Some (save_path (config s2))) s2 with
      | Ok f => (Ok (), set_filename (Some f) s2)
      | Raise e => (Raise e, s2)
      end in
  match named with
  | (Ok _, s3) =>
      (Ok (), set_grab_metadata true (set_do_acquire true s3))
  | (Raise e, s3) => (Raise e, s3)
  end.

(** The end of [snap]: the wait returns once [acquire_done] is set. *)
Definition snap_end (s : state) : option state :=
  if acquire_done s then Some (set_acquire_done false s) else None.

(** A thread leaves [acquisition_loop]: it disarms and ends. *)
Definition loop_exit (s : state) : state :=
  let s1 := disarm s in
  set_loop_threads (pred (loop_threads s1)) s1.

(** One pass of the [while True] loop of [acquisition_loop], by one of
    the live threads.  Without a pending trigger the wait times out. *)
Definition acquisition_loop (s : state) : option state :=
  match loop_threads s with
  | O => None
  | S _ =>
      if negb (do_acquire s) then
        if end_acquisition s then Some (loop_exit s) else Some s
      else
        let s1 := set_do_acquire false s in
        let s2 := call DTrigger s1 in
        let s3 := set_acquire_done true s2 in
        let frame := next_frame s3 in
        let s4 := call DReadout s3 in
        (* broadcast *)
        let s5 := set_file_streamer (file_streamer s4 ++ [frame]) s4 in
        if rolling s5 then Some (set_do_acquire true s5)
        else
          (* not rolling, so saving *)
          let s6 := set_file_writer
                      (file_writer s5 ++ [(filename s5, frame)]) s5 in
          if auto_armed s6 then Some (loop_exit (set_auto_armed false s6))
          else Some (call DRearm s6)
  end.

Definition live_on (s : state) : state :=
  set_config (set_do_broadcast true (config s)) s.

(** [roll(switch, fps)]; [fps or DEFAULT_FPS] takes the default for
    [None] and for zero. *)
Definition roll (switch : option bool) (fps : option Q) (s : state)
  : state :=
  if rolling s then
    match switch with
    | Some true => s
    | _ => disarm (set_rolling false s)
    end
  else
    match switch with
    | Some false => s
    | _ =>
        let s1 := if negb (do_broadcast (config s)) then live_on s else s in
        let s2 := set_rolling true s1 in
        let fps := match fps with
                   | Some f => if Qeq_bool f 0 then DEFAULT_FPS else f
                   | None => DEFAULT_FPS
                   end in
        let fps := if Qlt_le_dec MAX_FPS fps then MAX_FPS else fps in
        let s3 := set_config (set_exposure_time (/ fps) (config s2)) s2 in
        let s4 := set_do_acquire true s3 in
        if negb (armed s4) then arm None None s4 else s4
    end.

(** The calls of the control thread and the passes of the loop
    threads, one atomic step each. *)
Inductive event :=
  | Arm (exp_time : option Q) (exp_num : option Z)
  | Disarm
  | SnapBegin (exp_time : option Q) (exp_num : option Z)
  | SnapEnd
  | Roll (switch : option bool) (fps : option Q)
  | Loop.

Definition step (ev : event) (s : state) : option state :=
  match ev with
  | Arm t n => Some (arm t n s)
  | Disarm => Some (disarm s)
  | SnapBegin t n =>
      match snap_begin t n s with
      | (Ok _, s1) => Some s1
      | (Raise _, _) => None
      end
  | SnapEnd => snap_end s
  | Roll sw fps => Some (roll sw fps s)
  | Loop => acquisition_loop s
  end.

(** Runs a schedule; [None] when one of its events cannot happen where
    it stands. *)
Fixpoint exec (evs : list event) (s : state) : option state :=
  match evs with
  | [] => Some s
  | ev :: rest => s1 ← step ev s; exec rest s1
  end.


End Engine.

End CameraBase.

(** ** Sample objects, used to run the definitions *)

Module Samples.

Definition data_path : string := "/data".

(** An experiment directory with two scans and a stray file. *)
Definition scans : list dirent :=
  [ {| name := "000001_24-03-01"; is_dir := true |};
    {| name := "notes.txt"; is_dir := false |};
    {| name := "000005_24-03-02_tomo"; is_dir := true |} ].

Definition disk : FS :=
  <["/data/speckle/run1" := scans]> (<["/data/speckle/run0" := []]> ∅).

Definition makedirs (f : FS) (p : string) : FS := <[p := []]> f.

Definition manager : Manager.state :=
  Manager.init {| Manager.cfg_investigation := Some "speckle";
                  Manager.cfg_experiment := Some "run1" |} disk.

Definition manager_empty_run : Manager.state :=
  Manager.init {| Manager.cfg_investigation := Some "speckle";
                  Manager.cfg_experiment := Some "run0" |} disk.

(** A manager whose investigation has never been set. *)
Definition manager_fresh : Manager.state :=
  Manager.init {| Manager.cfg_investigation := None;
                  Manager.cfg_experiment := Some "old" |} disk.

(** The coordinator once its client loop has registered a camera. *)
Definition coordinator : Manager.state :=
  {| Manager.config := Manager.config manager; Manager._running := false;
     Manager.counter := 0; Manager.requests := ∅;
     Manager.clients := ["manager"; "xspectrum"]; Manager.threads := ∅;
     Manager.next_thread := 0%nat; Manager.fs := disk;
     Manager.logger := [] |}.

Definition settings : CameraBase.settings :=
  {| CameraBase.counter := 0; CameraBase.do_broadcast := true;
     CameraBase.file_format := CameraBase.hdf5;
     CameraBase.file_prefix := "snap"; CameraBase.save_path := "/data/snaps";
     CameraBase.exposure_time := 1; CameraBase.exposure_number := 1 |}.

(** No scan is running. *)
Definition ledger : CameraBase.ledger :=
  {| CameraBase.scan_path := None; CameraBase._base_file_name := "";
     CameraBase.ledger_counter := 0 |}.



Definition EOL : SocketDriverBase.bytes := [x0a].

(** A device that answers the first command with two lines, the second
    of which arrives after the caller has taken the first. *)
Definition line_ok : SocketDriverBase.bytes := [x4f; x4b; x0a].
Definition line_done : SocketDriverBase.bytes := [x44; x4f; x4e; x45; x0a].
Definition line_val : SocketDriverBase.bytes := [x34; x32; x0a].
Definition cmd_move : SocketDriverBase.bytes := [x4d; x56; x0a].
Definition cmd_pos : SocketDriverBase.bytes := [x50; x4f; x53; x0a].

End Samples.

(** ** The device link over its life: connection, exchanges, keep-alive *)

Module LinkLifecycle.
Import SocketDriverBase.

(** Number of times to try to connect. *)
Definition NUM_CONNECTION_RETRY : nat := 2.

(** The link as [__init__] leaves it before [connect_device]: no
    receiver, not connected.  The buffer and the flag are [None] in the
    source until the connection is made and are not read before. *)
Definition new_link : state :=
  {| device_sock := {| closed := false; sent := [] |};
     shutdown_requested := false; recv_buffer := []; recv_flag := false;
     recv_thread := false; connected := false; initialized := false;
     logger := [] |}.

Definition set_connected (v : bool) (s : state) : state :=
  {| device_sock := device_sock s; shutdown_requested := shutdown_requested s;
     recv_buffer := recv_buffer s; recv_flag := recv_flag s;
     recv_thread := recv_thread s; connected := v;
     initialized := initialized s; logger := logger s |}.

Section Connect.
(** [os.strerror] *)
Variable strerror : Z -> string.
(** The outcome of the [n]-th call of [connect_ex] on the new socket. *)
Variable connect_ex : nat -> Z.
(** The text [f'Driver {self.name} connected to {host}:{port}'] *)
Variable connected_message : string.

(** The [for retry_count in range(NUM_CONNECTION_RETRY)] loop at attempt
    [n], with [more] attempts allowed after it; returns the last
    [conn_errno].  (The range is not empty, so the loop body runs at
    least once.) *)
Fixpoint connect_loop (more n : nat) (s : state) : Z * state :=
  let e := connect_ex n in
  if e =? 0 then (e, s)
  else
    let s1 := log CRITICAL (strerror e) s in
    match more with
    | O => (e, s1)
    | S more' => connect_loop more' (S n) s1
    end.

(** [connect_device].  The receiver thread it starts is recorded in
    [recv_thread]. *)
Definition connect_device (s : state) : res unit * state :=
  let s0 := set_device_sock {| closed := false; sent := [] |} s in
  let '(conn_errno, s1) := connect_loop (pred NUM_CONNECTION_RETRY) 0 s0 in
  if negb (conn_errno =? 0) then
    (Raise (DeviceException "Can't connect to device"),
     log CRITICAL "Can't connect to device" s1)
  else
    let s2 := set_recv [] false s1 in
    let s3 := set_recv_thread true s2 in
    (Ok (), log INFO connected_message (set_connected true s3)).
End Connect.

(** A run of complete exchanges: each command is sent, the receiver
    passes [during] run, the reply is taken. *)
Definition exchange (x : bytes * list (list bytes)) : list event :=
  Cmd x.1 :: map arrival x.2 ++ [Reply].

Definition exchanges (xs : list (bytes * list (list bytes))) : list event :=
  concat (map exchange xs).

(** What the keep-alive call of a driver can come to: a reply, a
    [socket.timeout], a [DeviceException], or any other exception. *)
Inductive wait_result :=
  | Replied
  | TimedOut
  | DeviceGone
  | Failed (e : exn).

(** The link together with the attributes of the keep-alive thread. *)
Record supervised := {
  link : state;
  (** number of skipped answers in the polling thread *)
  device_N_noreply : nat;
  (** whether the thread running [_keep_alive] is alive *)
  keep_alive_thread : bool
}.

Section KeepAlive.
(** [wait_call] of the driver, on the link. *)
Variable wait_call : state -> wait_result * state.

(** One pass of the [while True] loop of [_keep_alive]; an exception
    other than the two it catches ends the thread. *)
Definition _keep_alive (k : supervised) : supervised :=
  if negb (keep_alive_thread k) then k
  else if negb (connected (link k) && initialized (link k)) then k
  else
    match wait_call (link k) with
    | (Replied, s) =>
        {| link := s; device_N_noreply := 0; keep_alive_thread := true |}
    | (TimedOut, s) =>
        {| link := s; device_N_noreply := S (device_N_noreply k);
           keep_alive_thread := true |}
    | (DeviceGone, s) =>
        {| link := close_device (log CRITICAL "Device disconnected." s);
           device_N_noreply := device_N_noreply k;
           keep_alive_thread := true |}
    | (Failed _, s) =>
        {| link := s; device_N_noreply := device_N_noreply k;
           keep_alive_thread := false |}
    end.

(** Passes of the keep-alive loop, one after the other. *)
Fixpoint keep_alive_passes (n : nat) (k : supervised) : supervised :=
  match n with
  | O => k
  | S n' => keep_alive_passes n' (_keep_alive k)
  end.
End KeepAlive.

End LinkLifecycle.

(** ** The scan ledger over a scan: numbering, naming, counting *)

Module ScanLedger.

(** Decimal digits of a non-negative number, most significant first. *)
Definition digit_char (d : Z) : ascii := ascii_of_nat (48 + Z.to_nat d).

Fixpoint decimal_digits (fuel : nat) (n : Z) (acc : list ascii)
  : list ascii :=
  match fuel with
  | O => acc
  | S fuel' =>
      let acc' := digit_char (n mod 10) :: acc in
      if n <? 10 then acc' else decimal_digits fuel' (n / 10) acc'
  end.

Definition digits_of (n : Z) : list ascii :=
  decimal_digits (S (Z.to_nat (Z.log2 n))) n [].

(** Left padding with zeros up to [width] characters. *)
Definition zero_pad (width : nat) (l : list ascii) : list ascii :=
  repeat "0"%char (width - length l) ++ l.

(** [f'{n:06d}']: the sign, if any, counts in the width. *)
Definition format_06d (n : Z) : string :=
  String.string_of_list_ascii
    (if n <? 0 then "-"%char :: zero_pad 5 (digits_of (- n))
     else zero_pad 6 (digits_of n)).

(** A text without replacement field or escaped brace. *)
Definition brace_free (s : string) : bool :=
  forallb (fun c => negb (bool_decide (c = "{"%char))
                    && negb (bool_decide (c = "}"%char)))
          (String.list_ascii_of_string s).

(** The attributes of the manager that describe the current scan. *)
Record scan_attrs := {
  _scan_number : option Z;
  _scan_name : option string;
  _label : option string;
  _base_file_name : option string
}.

(** The manager with its scan attributes. *)
Record ledger := {
  manager : Manager.state;
  attrs : scan_attrs
}.

Definition set_running (v : bool) (s : Manager.state) : Manager.state :=
  {| Manager.config := Manager.config s; Manager._running := v;
     Manager.counter := Manager.counter s;
     Manager.requests := Manager.requests s;
     Manager.clients := Manager.clients s;
     Manager.threads := Manager.threads s;
     Manager.next_thread := Manager.next_thread s;
     Manager.fs := Manager.fs s; Manager.logger := Manager.logger s |}.

Definition set_counter (v : Z) (s : Manager.state) : Manager.state :=
  {| Manager.config := Manager.config s;
     Manager._running := Manager._running s; Manager.counter := v;
     Manager.requests := Manager.requests s;
     Manager.clients := Manager.clients s;
     Manager.threads := Manager.threads s;
     Manager.next_thread := Manager.next_thread s;
     Manager.fs := Manager.fs s; Manager.logger := Manager.logger s |}.

(** The name [start_scan] gives to scan [number]:
    [f'{number:06d}_{today}'], followed by [f'_{label}'] if there is a
    label. *)
Definition new_scan_name (number : Z) (today : string)
    (label : option string) : string :=
  let scan_name := format_06d number +:+ "_" +:+ today in
  match label with
  | Some lb => scan_name +:+ "_" +:+ lb
  | None => scan_name
  end.

(** The dictionary [start_scan] returns. *)
Record scan_info := {
  info_scan_number : Z;
  info_scan_name : string;
  info_investigation : option string;
  info_experiment : option string;
  info_path : string
}.

(** The dictionary [end_scan] returns. *)
Record scan_summary := {
  sum_scan_number : option Z;
  sum_scan_name : option string;
  sum_investigation : option string;
  sum_experiment : option string;
  sum_path : string;
  sum_count : Z
}.

(** The [scan_name] property. *)
Definition scan_name (l : ledger) : option string :=
  if negb (Manager._running (manager l)) then None
  else _scan_name (attrs l).

(** The [scan_number] property. *)
Definition scan_number (l : ledger) : option Z :=
  if negb (Manager._running (manager l)) then None
  else _scan_number (attrs l).

(** The [scan_path] property. *)
Definition scan_path (l : ledger) : res (option string) :=
  if negb (Manager._running (manager l)) then Ok None
  else
    p ← Manager.path (manager l);
    match scan_name l with
    | Some nm => Ok (Some (os_path_join p nm))
    | None => Raise TypeError
    end.

Definition get_counter (l : ledger) : Z := Manager.counter (manager l).

Section Scan.
Variable data_path : string.
(** [os.makedirs(p, exist_ok=True)] on the file system. *)
Variable os_makedirs : FS -> string -> FS.
(** [template.format(n)] *)
Variable str_format : string -> Z -> res string.

(** [start_scan]; [today] is [datetime.now().strftime('%y-%m-%d')]. *)
Definition start_scan (label : option string) (today : string) (l : ledger)
  : res scan_info * ledger :=
  let m := manager l in
  if Manager._running m then
    (Raise (RuntimeError
       ("Scan " +:+ fmt_opt (scan_name l) +:+ " already running")), l)
  else
    match Manager.next_scan data_path m with
    | Raise e => (Raise e, l)
    | Ok None =>
        (* formatting [None] with [06d] *)
        (Raise TypeError,
         {| manager := m;
            attrs := {| _scan_number := None;
                        _scan_name := _scan_name (attrs l);
                        _label := _label (attrs l);
                        _base_file_name := _base_file_name (attrs l) |} |})
    | Ok (Some number) =>
        let scan_name := format_06d number +:+ "_" +:+ today in
        let scan_name :=
          match label with
          | Some lb => scan_name +:+ "_" +:+ lb
          | None => scan_name
          end in
        let a := {| _scan_number := Some number;
                    _scan_name := Some scan_name;
                    _label := label;
                    _base_file_name := Some (scan_name +:+ "_{0:06d}") |} in
        let m1 := set_counter 0 (set_running true m) in
        match Manager.path m1 with
        | Raise e => (Raise e, {| manager := m1; attrs := a |})
        | Ok p =>
            let dir := os_path_join (os_path_join data_path p) scan_name in
            let m2 := Manager.set_fs (os_makedirs (Manager.fs m1) dir) m1 in
            (Ok {| info_scan_number := number;
                   info_scan_name := scan_name;
                   info_investigation := Manager.investigation m2;
                   info_experiment := Manager.experiment m2;
                   info_path := p |},
             {| manager := m2; attrs := a |})
        end
    end.

Definition end_scan (l : ledger) : res scan_summary * ledger :=
  let m := manager l in
  if negb (Manager._running m) then
    (Raise (RuntimeError "No scan currently running"), l)
  else
    let l1 := {| manager := set_running false m; attrs := attrs l |} in
    match Manager.path (manager l1) with
    | Raise e => (Raise e, l1)
    | Ok p =>
        (Ok {| sum_scan_number := _scan_number (attrs l1);
               sum_scan_name := _scan_name (attrs l1);
               sum_investigation := Manager.investigation (manager l1);
               sum_experiment := Manager.experiment (manager l1);
               sum_path := p;
               sum_count := Manager.counter (manager l1) |}, l1)
    end.

Definition next_prefix (l : ledger) : res string * ledger :=
  let m := manager l in
  if negb (Manager._running m) then
    (Raise (RuntimeError "No scan currently running"), l)
  else
    match _base_file_name (attrs l) with
    | None => (Raise AttributeError, l)
    | Some template =>
        match str_format template (Manager.counter m) with
        | Raise e => (Raise e, l)
        | Ok prefix =>
            (Ok prefix,
             {| manager := set_counter (Manager.counter m + 1) m;
                attrs := attrs l |})
        end
    end.

(** [next_prefix] called [k] times in a row; the prefixes in order. *)
Fixpoint next_prefixes (k : nat) (l : ledger) : res (list string) * ledger :=
  match k with
  | O => (Ok [], l)
  | S k' =>
      match next_prefix l with
      | (Raise e, l1) => (Raise e, l1)
      | (Ok p, l1) =>
          match next_prefixes k' l1 with
          | (Raise e, l2) => (Raise e, l2)
          | (Ok ps, l2) => (Ok (p :: ps), l2)
          end
      end
  end.
End Scan.

(** The ledger right after construction; [__init__] stores the result
    of [next_scan] when it returns. *)
Definition init (data_path : string) (m : Manager.state) : ledger :=
  {| manager := m;
     attrs := {| _scan_number := match Manager.next_scan data_path m with
                                 | Ok n => n
                                 | Raise _ => None
                                 end;
                 _scan_name := None; _label := None;
                 _base_file_name := None |} |}.

End ScanLedger.

(** ** The source registry and the fetches of a request *)

Module Registry.
Import Manager.

(** Whether [future.done()] is false for the future [h]. *)
Definition pending (s : state) (h : nat) : bool :=
  match threads s !! h with
  | Some (Finished _) => false
  | _ => true
  end.

(** The fetches of a request run to completion, one after the other,
    each source answering [reply source] after [dt] seconds. *)
Definition finish_all (req : request) (reply : string -> gmap string pyval)
    (dt : Q) (s : state) : state :=
  foldl (fun s e => finish e.2 (reply e.1) dt s) s req.

(** A fetch of the request [req] has finished with the result [m] for
    the source [src]. *)
Definition fetched_for (s : state) (req : list (string * nat))
    (src : string) (m : gmap string pyval) : Prop :=
  exists h r, (src, h) ∈ req /\
              threads s !! h = Some (Finished (Some r)) /\ meta r = m.

(** The record [fetch_meta] logs when a fetch has succeeded. *)
Definition completed (source : string) : log_record :=
  (DEBUG, source +:+ " : metadata collection completed").

Definition set_clients (c : list string) (s : state) : state :=
  {| config := config s; _running := _running s; counter := counter s;
     requests := requests s; clients := c; threads := threads s;
     next_thread := next_thread s; fs := fs s; logger := logger s |}.

(** [str.lower()] on ASCII text. *)
Definition lower_char (c : ascii) : ascii :=
  let n := nat_of_ascii c in
  if (65 <=? n)%nat && (n <=? 90)%nat then ascii_of_nat (n + 32) else c.

Definition lower (s : string) : string :=
  String.string_of_list_ascii (map lower_char (String.list_ascii_of_string s)).

Section ClientsLoop.
(** [Classes.keys()]: the names of the registered driver classes. *)
Variable Classes : list string.
(** [self.name] *)
Variable self_name : string.
(** Whether [client_or_None(name, ...)] returns a client. *)
Variable client_or_None : string -> bool.
(** Whether [cl.conn.ping()] returns; it raises [EOFError] otherwise. *)
Variable ping : string -> bool.

(** The body of the [for name in Classes.keys()] loop. *)
Definition clients_loop_body (s : state) (name : string) : state :=
  if bool_decide (lower name = lower self_name) then s
  else if bool_decide (name ∉ clients s) then
    if client_or_None name then
      set_clients (clients s ++ [name])
        (log INFO ("Client " +:+ dq +:+ name +:+ dq +:+ " is connected") s)
    else s
  else
    if ping name then s
    else set_clients (filter (fun c => c <> name) (clients s)) s.

(** One pass of the [while True] loop of [clients_loop], the stop flag
    not being set. *)
Definition clients_loop (s : state) : state :=
  foldl clients_loop_body s Classes.
End ClientsLoop.

(** The manager with the stop flag of its client loop and the record of
    the servers it has killed, oldest first. *)
Record coordinator := {
  manager : state;
  stop_flag : bool;
  killed : list string
}.

(** The [while self.clients] loop of [killall]: [popitem] takes the
    entry inserted last. *)
Fixpoint killall_loop (newest_first : list string) (k : coordinator)
  : coordinator :=
  match newest_first with
  | [] => k
  | name :: rest =>
      let m := set_clients (reverse rest) (manager k) in
      if bool_decide (name = "manager") then
        killall_loop rest {| manager := m; stop_flag := stop_flag k;
                             killed := killed k |}
      else
        killall_loop rest
          {| manager := log INFO (name +:+ " killed.") m;
             stop_flag := stop_flag k;
             killed := killed k ++ [name] |}
  end.

Definition killall (k : coordinator) : coordinator :=
  killall_loop (reverse (clients (manager k)))
    {| manager := manager k; stop_flag := true; killed := killed k |}.

End Registry.

(** ** More sample objects *)

Module MoreSamples.

(** A link after [shutdown] and the last pass of its receiver. *)
Definition shut_down_link : SocketDriverBase.state :=
  SocketDriverBase.set_recv_thread false
    (SocketDriverBase.shutdown SocketDriverBase.connected_link).

Definition strerror (e : Z) : string := "Connection refused".

(** A device that refuses the first connection and accepts the second. *)
Definition second_try (n : nat) : Z := if (n =? 0)%nat then 111 else 0.

Definition accepts (n : nat) : Z := 0.

(** [os.makedirs] for the scan directories of the sample experiment:
    the directory [p] is created empty and listed, under the name that
    follows the experiment path, in the experiment directory. *)
Definition scan_makedirs (f : FS) (p : string) : FS :=
  let parent := "/data/speckle/run1" in
  let nm := String.substring (String.length parent + 1)
                             (String.length p) p in
  <[p := []]> (alter (fun l => l ++ [{| name := nm; is_dir := true |}])
                     parent f).

Definition sample_ledger : ScanLedger.ledger :=
  ScanLedger.init Samples.data_path Samples.manager.

(** [str.format] on templates made of a brace-free text followed by the
    field of the frame counter; other templates are not needed here. *)
Definition counter_format (template : string) (n : Z) : res string :=
  let l := String.list_ascii_of_string template in
  let k := (length l - 8)%nat in
  if bool_decide (drop k l = String.list_ascii_of_string "_{0:06d}")
     && ScanLedger.brace_free (String.string_of_list_ascii (take k l))
  then Ok (String.string_of_list_ascii (take k l) +:+ "_"
           +:+ ScanLedger.format_06d n)
  else Raise ValueError.

(** The sample ledger in the middle of scan 6. *)
Definition running_ledger : ScanLedger.ledger :=
  {| ScanLedger.manager :=
       ScanLedger.set_counter 0
         (ScanLedger.set_running true Samples.manager);
     ScanLedger.attrs :=
       {| ScanLedger._scan_number := Some 6;
          ScanLedger._scan_name := Some "000006_24-03-05";
          ScanLedger._label := None;
          ScanLedger._base_file_name := Some "000006_24-03-05_{0:06d}" |} |}.

(** The metadata a driver answers with. *)
Definition reply (source : string) : gmap string pyval :=
  <["driver" := PyStr source]> ∅.

(** The coordinator after [request_meta('snap')]. *)
Definition requested : Manager.state :=
  (Manager.request_meta (Some "snap") [] Samples.coordinator).2.

(** The same once the fetch from the manager itself has finished, the
    one from the camera still running. *)
Definition half_fetched : Manager.state :=
  Manager.finish 0 (reply "manager") 1 requested.

(** A keep-alive call that finds the device gone. *)
Definition gone (s : SocketDriverBase.state)
  : LinkLifecycle.wait_result * SocketDriverBase.state :=
  (LinkLifecycle.DeviceGone, s).

Definition supervised_link : LinkLifecycle.supervised :=
  {| LinkLifecycle.link := SocketDriverBase.connected_link;
     LinkLifecycle.device_N_noreply := 0;
     LinkLifecycle.keep_alive_thread := true |}.

End MoreSamples.

(** * Properties *)

(** ** Metadata calls of a driver *)

Section GetMetaFacts.
Import DriverBase.
Context {Self : Type}.
Variable metacalls : gmap string (Self -> res pyval).
Variable self : Self.

Lemma get_meta_loop_ok (keys : list string) (meta : gmap string pyval) :
  (forall k, k ∈ keys -> exists v, entry_of metacalls self k = Ok v) ->
  exists meta',
    get_meta_loop metacalls self keys meta = Ok meta' /\
    forall k v, meta' !! k = Some v <->
      (k ∈ keys /\ entry_of metacalls self k = Ok v)
      \/ ((k ∉ keys) /\ meta !! k = Some v).
Proof.
  revert meta. induction keys as [|key rest IH]; intros meta Hall.
  - exists meta. split; [done|]. intros k v. split.
    + intros H. right. split; [apply not_elem_of_nil | done].
    + intros [[H _]|[_ H]]; [by apply elem_of_nil in H | done].
  - destruct (Hall key) as [w Hw]; [left|].
    assert (Hrest : forall k, k ∈ rest ->
              exists v, entry_of metacalls self k = Ok v).
    { intros k Hk. apply Hall. by right. }
    assert (Hstep : get_meta_loop metacalls self (key :: rest) meta
              = get_meta_loop metacalls self rest (<[key := w]> meta)).
    { simpl. unfold entry_of in Hw.
      destruct (metacalls !! key) as [call|].
      - rewrite Hw. done.
      - by inversion Hw. }
    destruct (IH (<[key := w]> meta) Hrest) as (meta' & Hrun & Hlook).
    exists meta'. split; [by rewrite Hstep|].
    intros k v. rewrite Hlook. rewrite elem_of_cons.
    destruct (decide (k = key)) as [->|Hne].
    + rewrite lookup_insert_eq. split.
      * intros [[Hin He]|[Hnin Hv]]; [left; eauto|].
        left. split; [by left|]. congruence.
      * intros [[_ He]|[Hnin _]]; [|exfalso; apply Hnin; by left].
        destruct (decide (key ∈ rest)); [left; eauto|].
        right. split; [done|]. congruence.
    + rewrite lookup_insert_ne by done. split.
      * intros [[Hin He]|[Hnin Hv]]; [left; eauto|].
        right. split; [|done]. intros [?|?]; done.
      * intros [[[?|Hin] He]|[Hnin Hv]]; [done|left; eauto|].
        right. split; [|done]. intros ?. apply Hnin. by right.
Qed.

(** A failure of the loop is the failure of a registered call: a key
    without a call never makes it fail. *)
Lemma get_meta_loop_raise (keys : list string) (meta : gmap string pyval)
    (e : exn) :
  get_meta_loop metacalls self keys meta = Raise e ->
  exists k call,
    k ∈ keys /\ metacalls !! k = Some call /\ call self = Raise e.
Proof.
  revert meta. induction keys as [|key rest IH]; intros meta; simpl.
  - discriminate.
  - destruct (metacalls !! key) as [call|] eqn:Hcall.
    + destruct (call self) as [v|e'] eqn:Hres; simpl.
      * intros H. destruct (IH _ H) as (k & c & Hk & Hc & Hr).
        exists k, c. split; [by right | done].
      * intros [= <-]. exists key, call. split; [by left | done].
    + intros H. destruct (IH _ H) as (k & c & Hk & Hc & Hr).
      exists k, c. split; [by right | done].
Qed.

Lemma elem_of_metacalls_keys (k : string) :
  k ∈ (map_to_list metacalls).*1 <-> is_Some (metacalls !! k).
Proof.
  rewrite list_elem_of_fmap. split.
  - intros ([k' c] & -> & Hin). apply elem_of_map_to_list in Hin. eauto.
  - intros [c Hc]. exists (k, c). split; [done|].
    by apply elem_of_map_to_list.
Qed.

(** C9.  When the registered calls among the requested keys return,
    [get_meta] returns a dictionary over exactly the requested keys: a
    key without a registered call maps to ['unknown'] (and cannot make
    the call fail), a key with one maps to what its call returns; with
    [metakeys = None] the keys are exactly the registered ones. *)
Theorem get_meta_unknown_and_registered (metakeys : option (list string)) :
  (forall k call,
     k ∈ requested metacalls metakeys -> metacalls !! k = Some call ->
     exists v, call self = Ok v) ->
  exists meta,
    get_meta metacalls self metakeys = Ok meta /\
    (forall k, k ∈ requested metacalls metakeys -> metacalls !! k = None ->
               meta !! k = Some (PyStr "unknown")) /\
    (forall k call v,
       k ∈ requested metacalls metakeys -> metacalls !! k = Some call ->
       call self = Ok v -> meta !! k = Some v) /\
    (forall k, is_Some (meta !! k) <-> k ∈ requested metacalls metakeys) /\
    (metakeys = None -> dom meta = dom metacalls).
Proof.
  intros Hcalls.
  assert (Hall : forall k, k ∈ requested metacalls metakeys ->
            exists v, entry_of metacalls self k = Ok v).
  { intros k Hk. unfold entry_of.
    destruct (metacalls !! k) as [call|] eqn:Hc; eauto. }
  destruct (get_meta_loop_ok (requested metacalls metakeys) ∅ Hall)
    as (meta & Hrun & Hlook).
  exists meta. split; [exact Hrun|].
  assert (Hdom : forall k,
            is_Some (meta !! k) <-> k ∈ requested metacalls metakeys).
  { intros k. split.
    - intros [v Hv]. apply Hlook in Hv as [[Hin _]|[_ Hv]]; [done|].
      by rewrite lookup_empty in Hv.
    - intros Hin. destruct (Hall k Hin) as [v Hv]. exists v.
      apply Hlook. by left. }
  split; [|split; [|split]].
  - intros k Hin Hnone. apply Hlook. left. split; [done|].
    unfold entry_of. by rewrite Hnone.
  - intros k call v Hin Hc Hv. apply Hlook. left. split; [done|].
    unfold entry_of. by rewrite Hc.
  - exact Hdom.
  - intros ->. apply set_eq. intros k.
    rewrite !elem_of_dom, Hdom. simpl. apply elem_of_metacalls_keys.
Qed.
End GetMetaFacts.

(** ** Python builtins used by the scan ledger *)

Lemma list_ascii_of_substring (n : nat) (s : string) :
  String.list_ascii_of_string (String.substring 0 n s)
  = take n (String.list_ascii_of_string s).
Proof.
  revert s. induction n as [|n IH]; intros s.
  - destruct s; reflexivity.
  - destruct s as [|c s]; simpl; [reflexivity|]. by rewrite IH.
Qed.

Lemma is_digit_range (c : ascii) :
  is_digit c = true <-> (48 <= nat_of_ascii c <= 57)%nat.
Proof.
  unfold is_digit. rewrite andb_true_iff, !Nat.leb_le. reflexivity.
Qed.

Lemma digit_not_space (c : ascii) : is_digit c = true -> is_space c = false.
Proof.
  rewrite is_digit_range. intros H. unfold is_space. cbv zeta.
  rewrite !orb_false_iff, !andb_false_iff, Nat.eqb_neq, !Nat.leb_gt. lia.
Qed.

Lemma digit_not_char (c : ascii) (n : nat) :
  is_digit c = true -> (n < 48)%nat -> c <> ascii_of_nat n.
Proof.
  rewrite is_digit_range. intros H Hn ->.
  rewrite nat_ascii_embedding in H by lia. lia.
Qed.

Lemma lstrip_digit (c : ascii) (l : list ascii) :
  is_digit c = true -> lstrip (c :: l) = c :: l.
Proof. intros H. simpl. by rewrite (digit_not_space c H). Qed.

Lemma strip_digits (l : list ascii) :
  forallb is_digit l = true -> strip l = l.
Proof.
  intros Hall. unfold strip.
  assert (Hl : lstrip l = l).
  { destruct l as [|c l]; [reflexivity|].
    simpl in Hall. apply andb_true_iff in Hall as [Hc _].
    by apply lstrip_digit. }
  rewrite Hl.
  destruct (rev l) as [|c r] eqn:Hrev.
  - simpl. rewrite <- (rev_involutive l), Hrev. reflexivity.
  - rewrite lstrip_digit.
    + rewrite <- Hrev. apply rev_involutive.
    + rewrite forallb_forall in Hall. apply Hall.
      apply in_rev. rewrite Hrev. by left.
Qed.

Lemma digits_value_digits (l : list ascii) (acc : Z) :
  forallb is_digit l = true ->
  digits_value acc false l
  = Some (foldl (fun a c => 10 * a + digit_value c) acc l).
Proof.
  revert acc. induction l as [|c l IH]; intros acc Hall; simpl.
  - reflexivity.
  - simpl in Hall. apply andb_true_iff in Hall as [Hc Hl].
    rewrite Hc. by apply IH.
Qed.

(** On a string of decimal digits [int] is the decimal reading. *)
Lemma py_int_digits (s : string) :
  String.list_ascii_of_string s <> [] ->
  forallb is_digit (String.list_ascii_of_string s) = true ->
  py_int s = Some (decimal (String.list_ascii_of_string s)).
Proof.
  intros Hne Hall. unfold py_int. rewrite (strip_digits _ Hall).
  destruct (String.list_ascii_of_string s) as [|c l]; [done|].
  pose proof Hall as Hall'. simpl in Hall'.
  apply andb_true_iff in Hall' as [Hc Hl].
  rewrite bool_decide_eq_false_2
    by (apply (digit_not_char c 45 Hc); lia).
  rewrite bool_decide_eq_false_2
    by (apply (digit_not_char c 43 Hc); lia).
  simpl. rewrite Hc. unfold decimal. simpl. by apply digits_value_digits.
Qed.

(** [int(name[:6])] reads the six-digit prefix of a scan directory. *)
Lemma py_int_six_digit_prefix (nm : string) (n : Z) :
  six_digit_prefix nm = Some n ->
  py_int (String.substring 0 6 nm) = Some n.
Proof.
  unfold six_digit_prefix. intros H.
  destruct (bool_decide (length (take 6 (String.list_ascii_of_string nm)) = 6%nat))
    eqn:Hlen; simpl in H; [|discriminate].
  destruct (forallb is_digit (take 6 (String.list_ascii_of_string nm)))
    eqn:Hall; [|discriminate].
  injection H as <-. apply bool_decide_eq_true in Hlen.
  rewrite py_int_digits; rewrite list_ascii_of_substring; try done.
  intros Hnil. rewrite Hnil in Hlen. discriminate.
Qed.



(** ** Scan ledger *)




(** The two directories of the specification's example. *)
Example next_scan_examples :
  Manager.next_scan Samples.data_path Samples.manager = Ok (Some 6) /\
  Manager.next_scan Samples.data_path Samples.manager_empty_run = Ok (Some 0).
Proof. split; vm_compute; reflexivity. Qed.

(** C6.  While the investigation is unset, assigning any value to
    [experiment] raises a [RuntimeError] and the manager is left exactly
    as it was, its stored experiment included. *)
Theorem set_experiment_without_investigation (data_path : string)
    (os_makedirs : FS -> string -> FS) (s : Manager.state)
    (v : option string) :
  Manager.investigation s = None ->
  exists msg,
    Manager.set_experiment data_path os_makedirs v s
    = (Raise (RuntimeError msg), s).
Proof.
  intros Hinv. unfold Manager.set_experiment.
  destruct v as [v|]; [|eauto].
  destruct (Manager._running s); [eauto|].
  rewrite Hinv. eauto.
Qed.

Lemma set_experiment_without_investigation_witness :
  Manager.investigation Samples.manager_fresh = None /\
  exists msg,
    Manager.set_experiment Samples.data_path Samples.makedirs (Some "run2")
      Samples.manager_fresh
    = (Raise (RuntimeError msg), Samples.manager_fresh).
Proof.
  split; [reflexivity|].
  apply (set_experiment_without_investigation
           Samples.data_path Samples.makedirs Samples.manager_fresh
           (Some "run2")).
  reflexivity.
Defined.

(** C10.  A successful assignment to [investigation] stores the name and
    resets the stored experiment to [None]; the experiment path then
    cannot be computed until an experiment is assigned again. *)
Theorem set_investigation_resets_experiment (data_path : string)
    (os_makedirs : FS -> string -> FS) (s : Manager.state) (v : string) :
  Manager._running s = false ->
  Manager._valid_name v = true ->
  exists s',
    Manager.set_investigation (Some v) s = (Ok (), s') /\
    Manager.investigation s' = Some v /\
    Manager.experiment s' = None /\
    Manager.path s' = Raise TypeError /\
    Manager.next_scan data_path s' = Raise TypeError /\
    forall e, Manager._valid_name e = true ->
      exists s'',
        Manager.set_experiment data_path os_makedirs (Some e) s'
        = (Ok (), s'') /\
        Manager.investigation s'' = Some v /\
        Manager.experiment s'' = Some e /\
        Manager.path s'' = Ok (os_path_join v e).
Proof.
  intros Hrun Hvalid. unfold Manager.set_investigation.
  rewrite Hrun, Hvalid. simpl. eexists. split; [reflexivity|].
  repeat split.
  intros e He. unfold Manager.set_experiment. simpl. rewrite Hrun, He. simpl.
  unfold Manager._check_path, Manager.path. simpl.
  destruct (os_path_exists _ _); eexists; (split; [reflexivity|done]).
Qed.

Lemma set_investigation_resets_experiment_witness :
  Manager._running Samples.manager = false /\
  Manager._valid_name "long_branch" = true /\
  exists s',
    Manager.set_investigation (Some "long_branch") Samples.manager
    = (Ok (), s') /\
    Manager.investigation s' = Some "long_branch" /\
    Manager.experiment s' = None /\
    Manager.path s' = Raise TypeError /\
    Manager.next_scan Samples.data_path s' = Raise TypeError /\
    forall e, Manager._valid_name e = true ->
      exists s'',
        Manager.set_experiment Samples.data_path Samples.makedirs (Some e) s'
        = (Ok (), s'') /\
        Manager.investigation s'' = Some "long_branch" /\
        Manager.experiment s'' = Some e /\
        Manager.path s'' = Ok (os_path_join "long_branch" e).
Proof.
  split; [reflexivity|]. split; [vm_compute; reflexivity|].
  apply (set_investigation_resets_experiment
           Samples.data_path Samples.makedirs Samples.manager "long_branch").
  - reflexivity.
  - vm_compute. reflexivity.
Defined.

(** ** Metadata fan-out *)

Lemma spawn_all_spec (sources : list string) (s : Manager.state) :
  exists r s',
    Manager.spawn_all sources s = (r, s') /\
    r.*1 = sources /\
    (forall src h, (src, h) ∈ r ->
       Manager.threads s' !! h = Some (Manager.Running src) /\
       (Manager.next_thread s <= h)%nat) /\
    (forall h, (h < Manager.next_thread s)%nat ->
       Manager.threads s' !! h = Manager.threads s !! h) /\
    (Manager.next_thread s <= Manager.next_thread s')%nat /\
    Manager.requests s' = Manager.requests s /\
    Manager.clients s' = Manager.clients s /\
    Manager.logger s' = Manager.logger s.
Proof.
  revert s. induction sources as [|src rest IH]; intros s.
  - exists [], s. split; [done|]. split; [done|].
    split; [intros ? ? Hin; by apply elem_of_nil in Hin|].
    split; [done|]. split; [lia | done].
  - simpl.
    destruct (IH (Manager.set_threads
                    (<[Manager.next_thread s := Manager.Running src]>
                       (Manager.threads s))
                    (S (Manager.next_thread s)) s))
      as (r & s' & Hrun & Hnames & Hnew & Hold & Hnext & Hreq & Hcl & Hlog).
    simpl in *. rewrite Hrun.
    exists ((src, Manager.next_thread s) :: r), s'.
    split; [done|]. split; [rewrite fmap_cons; simpl; f_equal; exact Hnames|].
    split; [|split; [|split; [lia | done]]].
    + intros src' h [[= -> ->]|Hin]%elem_of_cons.
      * split; [|lia]. rewrite Hold by lia. apply lookup_insert_eq.
      * destruct (Hnew _ _ Hin). split; [done | lia].
    + intros h Hh. rewrite Hold by lia. apply lookup_insert_ne. lia.
Qed.

(** C7.  A request made under an ID that is still stored replaces the
    stored request by the new one, adds exactly one log record, of level
    [WARNING], and returns normally; other IDs are untouched. *)
Theorem request_meta_overwrites_with_warning (request_ID : option string)
    (exclude_list : list string) (s : Manager.state) (old : Manager.request) :
  Manager.requests s !! request_ID = Some old ->
  exists new s',
    Manager.request_meta request_ID exclude_list s = (Ok (), s') /\
    Manager.requests s' !! request_ID = Some new /\
    new.*1 = filter (fun src => src ∉ exclude_list) (Manager.clients s) /\
    (forall src h, (src, h) ∈ new ->
       Manager.threads s' !! h = Some (Manager.Running src) /\
       (Manager.next_thread s <= h)%nat) /\
    (forall other, other <> request_ID ->
       Manager.requests s' !! other = Manager.requests s !! other) /\
    Manager.logger s'
    = Manager.logger s ++ [Manager.overwrite_warning request_ID] /\
    (Manager.overwrite_warning request_ID).1 = WARNING.
Proof.
  intros Hold. unfold Manager.request_meta. rewrite Hold.
  set (s1 := Manager.log _ _ s).
  destruct (spawn_all_spec
              (filter (fun src => src ∉ exclude_list) (Manager.clients s1)) s1)
    as (new & s2 & Hrun & Hnames & Hnew & _ & _ & Hreq & _ & Hlog).
  rewrite Hrun. eexists new, _. split; [reflexivity|]. simpl.
  split; [apply lookup_insert_eq|]. split; [exact Hnames|].
  split; [exact Hnew|]. split; [|split; [exact Hlog | reflexivity]].
  intros other Hne. rewrite lookup_insert_ne by done. by rewrite Hreq.
Qed.

Lemma request_meta_overwrites_with_warning_witness :
  exists s1,
    Manager.request_meta (Some "X") [] Samples.coordinator = (Ok (), s1) /\
    Manager.requests s1 !! Some "X"
    = Some [("manager", 0%nat); ("xspectrum", 1%nat)] /\
    exists new s',
      Manager.request_meta (Some "X") ["manager"] s1 = (Ok (), s') /\
      Manager.requests s' !! Some "X" = Some new /\
      new.*1 = filter (fun src => src ∉ ["manager"]) (Manager.clients s1) /\
      (forall src h, (src, h) ∈ new ->
         Manager.threads s' !! h = Some (Manager.Running src) /\
         (Manager.next_thread s1 <= h)%nat) /\
      (forall other, other <> Some "X" ->
         Manager.requests s' !! other = Manager.requests s1 !! other) /\
      Manager.logger s'
      = Manager.logger s1 ++ [Manager.overwrite_warning (Some "X")] /\
      (Manager.overwrite_warning (Some "X")).1 = WARNING.
Proof.
  eexists. split; [reflexivity|]. split; [vm_compute; reflexivity|].
  apply (request_meta_overwrites_with_warning (Some "X") ["manager"] _
           [("manager", 0%nat); ("xspectrum", 1%nat)]).
  vm_compute. reflexivity.
Defined.

(** Without a stored request under the ID, nothing is logged. *)
Lemma request_meta_fresh_id (request_ID : option string)
    (exclude_list : list string) (s : Manager.state) :
  Manager.requests s !! request_ID = None ->
  exists new s',
    Manager.request_meta request_ID exclude_list s = (Ok (), s') /\
    Manager.requests s' !! request_ID = Some new /\
    Manager.logger s' = Manager.logger s.
Proof.
  intros Hnone. unfold Manager.request_meta. rewrite Hnone.
  destruct (spawn_all_spec
              (filter (fun src => src ∉ exclude_list) (Manager.clients s)) s)
    as (new & s2 & Hrun & _ & _ & _ & _ & _ & _ & Hlog).
  rewrite Hrun. eexists new, _. split; [reflexivity|]. simpl.
  split; [apply lookup_insert_eq | exact Hlog].
Qed.

Lemma collect_all_running (req : Manager.request)
    (acc : gmap string (gmap string pyval)) (times : gmap string Q)
    (s : Manager.state) :
  (forall src h, (src, h) ∈ req ->
     exists src', Manager.threads s !! h = Some (Manager.Running src')) ->
  exists s',
    Manager.collect req acc times s = (acc, s') /\
    Manager.logger s'
    = Manager.logger s ++ map (fun e => Manager.late_warning e.1) req /\
    Manager.requests s' = Manager.requests s.
Proof.
  revert s. induction req as [|[src h] rest IH]; intros s Hall.
  - exists s. simpl. by rewrite app_nil_r.
  - destruct (Hall src h) as [src' Hsrc]; [by left|].
    simpl. rewrite Hsrc.
    destruct (IH (Manager.log WARNING
                    (src +:+ ": metadata collection not completed in time.") s))
      as (s' & Hrun & Hlog & Hreq).
    { intros src0 h0 Hin. simpl. apply (Hall src0 h0). by right. }
    exists s'. split; [exact Hrun|]. split; [|exact Hreq].
    rewrite Hlog. simpl. by rewrite <- app_assoc.
Qed.

(** Collecting before any fetch of the request has completed: an empty
    aggregate, one warning per source, the request removed. *)
Lemma return_meta_before_any_fetch (request_ID : option string)
    (s : Manager.state) (req : Manager.request) :
  Manager.requests s !! request_ID = Some req ->
  (forall src h, (src, h) ∈ req ->
     exists src', Manager.threads s !! h = Some (Manager.Running src')) ->
  exists s',
    Manager.return_meta request_ID s = (Ok ∅, s') /\
    Manager.logger s'
    = Manager.logger s ++ map (fun e => Manager.late_warning e.1) req /\
    Manager.requests s' = delete request_ID (Manager.requests s).
Proof.
  intros Hreq Hall. unfold Manager.return_meta. rewrite Hreq.
  destruct (collect_all_running req ∅ ∅
              (Manager.set_requests (delete request_ID (Manager.requests s)) s))
    as (s' & Hrun & Hlog & Hreqs); [exact Hall|].
  rewrite Hrun. exists s'. split; [reflexivity|]. split; [exact Hlog|].
  exact Hreqs.
Qed.

(** Collecting under an ID that is not stored: the error is logged and
    the call raises. *)
Lemma return_meta_unknown_id (request_ID : option string)
    (s : Manager.state) :
  Manager.requests s !! request_ID = None ->
  exists s',
    Manager.return_meta request_ID s = (Raise AttributeError, s') /\
    Manager.logger s' = Manager.logger s ++ [Manager.unknown_error request_ID] /\
    Manager.requests s' = Manager.requests s.
Proof.
  intros Hnone. unfold Manager.return_meta. rewrite Hnone.
  eexists. split; [reflexivity|]. split; reflexivity.
Qed.

(** C3.  On the coordinator with two clients: a request collected at once
    yields the empty aggregate and one warning per source; collecting the
    same ID a second time logs the error and then raises
    [AttributeError] instead of returning an empty aggregate. *)
Theorem return_meta_twice :
  exists s1 s2 s3,
    Manager.request_meta (Some "X") [] Samples.coordinator = (Ok (), s1) /\
    Manager.return_meta (Some "X") s1 = (Ok ∅, s2) /\
    Manager.logger s2
    = [Manager.late_warning "manager"; Manager.late_warning "xspectrum"] /\
    Manager.return_meta (Some "X") s2 = (Raise AttributeError, s3) /\
    Manager.logger s3
    = Manager.logger s2 ++ [Manager.unknown_error (Some "X")].
Proof.
  eexists _, _, _.
  split; [reflexivity|]. split; [vm_compute; reflexivity|].
  split; [vm_compute; reflexivity|]. split; [vm_compute; reflexivity|].
  vm_compute. reflexivity.
Qed.

(** The manager's own metadata calls, asked for a registered and an
    unregistered key. *)
Lemma get_meta_unknown_and_registered_witness :
  exists meta,
    DriverBase.get_meta (Manager.metacalls Samples.data_path) Samples.manager
      (Some ["investigation"; "detector"]) = Ok meta /\
    meta !! "detector" = Some (PyStr "unknown") /\
    meta !! "investigation" = Some (PyStr "speckle").
Proof.
  destruct (get_meta_unknown_and_registered
              (Manager.metacalls Samples.data_path) Samples.manager
              (Some ["investigation"; "detector"]))
    as (meta & Hrun & Hunknown & Hcall & _).
  - intros k call Hk Hc. simpl in Hk.
    apply elem_of_cons in Hk as [->|Hk].
    + unfold Manager.metacalls in Hc. rewrite lookup_insert_eq in Hc.
      injection Hc as <-. eexists. reflexivity.
    + apply elem_of_cons in Hk as [->|Hk]; [|by apply elem_of_nil in Hk].
      vm_compute in Hc. discriminate Hc.
  - exists meta. split; [exact Hrun|]. split.
    + apply Hunknown; [simpl; right; left | vm_compute; reflexivity].
    + apply (Hcall _ (fun s => Ok (from_option PyStr PyNone
                                     (Manager.investigation s)))).
      * simpl. left.
      * unfold Manager.metacalls. apply lookup_insert_eq.
      * reflexivity.
Defined.

(** ** Device link *)

Section LinkFacts.
Import SocketDriverBase.
Variable EOL : bytes.

Lemma device_cmd_send_live (cmd : bytes) (s : state) :
  live s ->
  exists s',
    device_cmd_send cmd s = (Ok (), s') /\ live s' /\
    recv_buffer s' = recv_buffer s /\ recv_flag s' = false /\
    sent (device_sock s') = sent (device_sock s) ++ [cmd].
Proof.
  intros (Hc & Hs & Ht & Hd). unfold device_cmd_send. rewrite Hc. simpl.
  unfold _send_all.
  destruct (initialized s); simpl; rewrite Hs;
    (eexists; split; [reflexivity|]; repeat split; assumption).
Qed.

Lemma listen_arrival_live (chunks : list bytes) (s : state) :
  live s -> is_Some (_recv_all EOL chunks) ->
  exists s',
    _listen_recv EOL {| rlist := Some chunks; elist := false |} s = Some s' /\
    live s' /\
    recv_buffer s' = recv_buffer s ++ received EOL chunks /\
    recv_flag s' = true /\
    sent (device_sock s') = sent (device_sock s).
Proof.
  intros (Hc & Hs & Ht & Hd) [[d rest] Hrecv].
  unfold _listen_recv, received. rewrite Ht, Hs. simpl. rewrite Hrecv.
  simpl. rewrite Hd. eexists. split; [reflexivity|].
  repeat split; assumption.
Qed.

Lemma exec_arrivals (passes : list (list bytes)) (s : state) :
  live s -> Forall (fun chunks => is_Some (_recv_all EOL chunks)) passes ->
  exists s',
    (forall rest, exec EOL (map (arrival) passes ++ rest) s
                  = exec EOL rest s') /\
    live s' /\
    recv_buffer s' = recv_buffer s ++ received_all EOL passes /\
    (passes <> [] -> recv_flag s' = true) /\
    sent (device_sock s') = sent (device_sock s).
Proof.
  intros Hlive Hall. revert s Hlive.
  induction Hall as [|chunks passes Hok Hall IH]; intros s Hlive.
  - exists s. split; [done|]. split; [done|].
    split; [by rewrite app_nil_r | done].
  - destruct (listen_arrival_live chunks s Hlive Hok)
      as (s1 & Hstep & Hlive1 & Hbuf1 & Hflag1 & Hsent1).
    destruct (IH s1 Hlive1) as (s' & Hrun & Hlive' & Hbuf & Hflag & Hsent).
    exists s'. split; [|split; [done|split; [|split]]].
    + intros rest. simpl. unfold arrival at 1. rewrite Hstep. simpl.
      apply Hrun.
    + rewrite Hbuf, Hbuf1. unfold received_all. simpl.
      by rewrite <- app_assoc.
    + intros _. destruct passes as [|p passes'].
      * destruct (IH s1 Hlive1) as (s'' & Hrun'' & _).
        specialize (Hrun []). specialize (Hrun'' []). simpl in *.
        congruence.
      * apply Hflag. done.
    + congruence.
Qed.

Lemma device_cmd_reply_live (s : state) :
  live s -> recv_flag s = true ->
  exists s',
    device_cmd_reply s = Some (recv_buffer s, s') /\ live s' /\
    recv_buffer s' = [] /\
    sent (device_sock s') = sent (device_sock s).
Proof.
  intros Hlive Hflag. unfold device_cmd_reply. rewrite Hflag.
  eexists. split; [reflexivity|]. split; [exact Hlive|]. done.
Qed.
End LinkFacts.

Section TwoCommands.
Import SocketDriverBase.
Variable EOL : bytes.

(** C1, as the code has it.  On a live link, the reply to a command is
    the whole buffer at the moment it is taken, and taking it empties
    the buffer; sending a command clears the flag only.  So the reply
    to the second of two commands is everything received since the
    first reply was taken: what arrived between the two commands
    followed by what arrived after the second was sent, and only the
    latter when nothing arrived in between. *)
Theorem device_cmd_reply_since_last_reply (c1 c2 : bytes)
    (during1 between during2 : list (list bytes)) (s : state) :
  live s ->
  Forall (fun chunks => is_Some (_recv_all EOL chunks))
         (during1 ++ between ++ during2) ->
  during1 <> [] -> during2 <> [] ->
  exists reply1 reply2 s',
    exec EOL (two_commands c1 c2 during1 between during2) s
    = Some ([reply1; reply2], s') /\
    reply1 = recv_buffer s ++ received_all EOL during1 /\
    reply2 = received_all EOL between ++ received_all EOL during2 /\
    (between = [] -> reply2 = received_all EOL during2) /\
    recv_buffer s' = [] /\
    sent (device_sock s') = sent (device_sock s) ++ [c1; c2].
Proof.
  intros Hlive Hall Hne1 Hne2.
  apply Forall_app in Hall as [Hall1 Hall].
  apply Forall_app in Hall as [HallM Hall2].
  destruct (device_cmd_send_live c1 s Hlive)
    as (sa & Hsend1 & Hla & Hba & Hfa & Hsa).
  destruct (exec_arrivals EOL during1 sa Hla Hall1)
    as (sb & Hrun1 & Hlb & Hbb & Hfb & Hsb).
  destruct (device_cmd_reply_live sb Hlb (Hfb Hne1))
    as (sc & Hrep1 & Hlc & Hbc & Hsc).
  destruct (exec_arrivals EOL between sc Hlc HallM)
    as (sd & HrunM & Hld & Hbd & _ & Hsd).
  destruct (device_cmd_send_live c2 sd Hld)
    as (se & Hsend2 & Hle & Hbe & Hfe & Hse).
  destruct (exec_arrivals EOL during2 se Hle Hall2)
    as (sf & Hrun2 & Hlf & Hbf & Hff & Hsf).
  destruct (device_cmd_reply_live sf Hlf (Hff Hne2))
    as (sg & Hrep2 & Hlg & Hbg & Hsg).
  exists (recv_buffer sb), (recv_buffer sf), sg. split.
  - unfold two_commands. cbn [exec]. rewrite Hsend1, Hrun1.
    cbn [exec]. rewrite Hrep1. simpl. rewrite HrunM.
    cbn [exec]. rewrite Hsend2, Hrun2.
    cbn [exec]. rewrite Hrep2. reflexivity.
  - assert (Hr2 : recv_buffer sf
                  = received_all EOL between ++ received_all EOL during2).
    { rewrite Hbf, Hbe, Hbd, Hbc. reflexivity. }
    split; [by rewrite Hbb, Hba|]. split; [exact Hr2|].
    split; [intros ->; exact Hr2|]. split; [exact Hbg|].
    rewrite Hsg, Hsf, Hse, Hsd, Hsc, Hsb, Hsa, <- app_assoc. reflexivity.
Qed.
End TwoCommands.

Lemma device_cmd_reply_since_last_reply_witness :
  SocketDriverBase.live SocketDriverBase.connected_link /\
  exists reply1 reply2 s',
    SocketDriverBase.exec Samples.EOL
      (SocketDriverBase.two_commands
         Samples.cmd_move Samples.cmd_pos
         [[Samples.line_ok]] [] [[[x34]; [x32; x0a]]])
      SocketDriverBase.connected_link
    = Some ([reply1; reply2], s') /\
    reply1 = Samples.line_ok /\ reply2 = Samples.line_val.
Proof.
  assert (Hlive : SocketDriverBase.live SocketDriverBase.connected_link).
  { repeat split. }
  split; [exact Hlive|].
  destruct (device_cmd_reply_since_last_reply Samples.EOL
              Samples.cmd_move Samples.cmd_pos
              [[Samples.line_ok]] [] [[[x34]; [x32; x0a]]]
              SocketDriverBase.connected_link Hlive)
    as (reply1 & reply2 & s' & Hrun & Hr1 & Hr2 & _).
  - repeat constructor; vm_compute; eauto.
  - discriminate.
  - discriminate.
  - exists reply1, reply2, s'. split; [exact Hrun|].
    split; [rewrite Hr1 | rewrite Hr2]; vm_compute; reflexivity.
Defined.

(** C1, as stated, fails: a line of the first reply that arrives after
    the caller has taken the first line is still in the buffer when the
    second command is sent, and comes back in front of the second
    reply. *)
Lemma device_cmd_leftover_counterexample :
  (exists replies s,
     SocketDriverBase.exec Samples.EOL
       [SocketDriverBase.Cmd Samples.cmd_move;
        SocketDriverBase.arrival [Samples.line_ok];
        SocketDriverBase.Reply;
        SocketDriverBase.arrival [Samples.line_done];
        SocketDriverBase.Cmd Samples.cmd_pos]
       SocketDriverBase.connected_link = Some (replies, s) /\
     SocketDriverBase.recv_buffer s = Samples.line_done) /\
  SocketDriverBase.exec Samples.EOL
    (SocketDriverBase.two_commands
       Samples.cmd_move Samples.cmd_pos
       [[Samples.line_ok]] [[Samples.line_done]] [[Samples.line_val]])
    SocketDriverBase.connected_link
  = Some ([Samples.line_ok; Samples.line_done ++ Samples.line_val],
          SocketDriverBase.set_device_sock
            {| SocketDriverBase.closed := false;
               SocketDriverBase.sent := [Samples.cmd_move; Samples.cmd_pos] |}
            (SocketDriverBase.set_recv [] true
               SocketDriverBase.connected_link)) /\
  ~ SocketDriverBase.no_leftover Samples.EOL Samples.cmd_move Samples.cmd_pos
      [[Samples.line_ok]] [[Samples.line_done]] [[Samples.line_val]]
      SocketDriverBase.connected_link.
Proof.
  split; [eexists _, _; split; vm_compute; reflexivity|].
  assert (Hrun : SocketDriverBase.exec Samples.EOL
    (SocketDriverBase.two_commands
       Samples.cmd_move Samples.cmd_pos
       [[Samples.line_ok]] [[Samples.line_done]] [[Samples.line_val]])
    SocketDriverBase.connected_link
  = Some ([Samples.line_ok; Samples.line_done ++ Samples.line_val],
          SocketDriverBase.set_device_sock
            {| SocketDriverBase.closed := false;
               SocketDriverBase.sent := [Samples.cmd_move; Samples.cmd_pos] |}
            (SocketDriverBase.set_recv [] true
               SocketDriverBase.connected_link)))
    by (vm_compute; reflexivity).
  split; [exact Hrun|].
  intros (reply1 & s' & Hclaim). rewrite Hrun in Hclaim.
  vm_compute in Hclaim. discriminate Hclaim.
Qed.

(** The receiver leaves its loop at the first pass after a shutdown
    request, whatever [select] reports, without touching the socket. *)
Lemma listen_after_shutdown (EOL : SocketDriverBase.bytes)
    (sel : SocketDriverBase.select_result) (s s' : SocketDriverBase.state) :
  SocketDriverBase.shutdown_requested s = true ->
  SocketDriverBase._listen_recv EOL sel s = Some s' ->
  SocketDriverBase.recv_thread s' = false /\
  SocketDriverBase.device_sock s' = SocketDriverBase.device_sock s /\
  SocketDriverBase.connected s' = SocketDriverBase.connected s.
Proof.
  intros Hreq. unfold SocketDriverBase._listen_recv.
  destruct (SocketDriverBase.recv_thread s); simpl; [|discriminate].
  destruct (SocketDriverBase.closed (SocketDriverBase.device_sock s));
    [by intros [= <-]|].
  destruct (SocketDriverBase.elist sel); [by intros [= <-]|].
  destruct (SocketDriverBase.rlist sel) as [chunks|]; simpl.
  - destruct (SocketDriverBase._recv_all EOL chunks) as [[d rest]|]; simpl;
      [|discriminate].
    rewrite Hreq. by intros [= <-].
  - rewrite Hreq. by intros [= <-].
Qed.

Lemma shutdown_idempotent (s : SocketDriverBase.state) :
  SocketDriverBase.shutdown (SocketDriverBase.shutdown s)
  = SocketDriverBase.log INFO "Shutting down connection to driver."
      (SocketDriverBase.shutdown s)
  \/ SocketDriverBase.shutdown (SocketDriverBase.shutdown s)
     = SocketDriverBase.shutdown s.
Proof.
  unfold SocketDriverBase.shutdown.
  destruct (SocketDriverBase.connected s) eqn:Hc; simpl.
  - left. reflexivity.
  - right. rewrite Hc. reflexivity.
Qed.

Lemma close_device_idempotent (s : SocketDriverBase.state) :
  SocketDriverBase.close_device (SocketDriverBase.close_device s)
  = SocketDriverBase.close_device s.
Proof. reflexivity. Qed.

(** After [close_device] the link is not connected, so [shutdown]
    returns at once and the flag stays as it was. *)
Lemma shutdown_after_close_device (s : SocketDriverBase.state) :
  SocketDriverBase.shutdown (SocketDriverBase.close_device s)
  = SocketDriverBase.close_device s.
Proof. reflexivity. Qed.

(** C8.  [shutdown] on a connected link sets the shutdown flag, and the
    receiver ends at its next pass; the socket is left open and the link
    is still marked connected, and stays so after the receiver has ended.
    Only [close_device] closes the socket and marks the link
    disconnected, and it does not set the flag. *)
Theorem shutdown_leaves_socket_open (EOL : SocketDriverBase.bytes)
    (s : SocketDriverBase.state) :
  SocketDriverBase.live s ->
  let s1 := SocketDriverBase.shutdown s in
  SocketDriverBase.shutdown_requested s1 = true /\
  SocketDriverBase.closed (SocketDriverBase.device_sock s1) = false /\
  SocketDriverBase.connected s1 = true /\
  (exists s2,
     SocketDriverBase._listen_recv EOL
       {| SocketDriverBase.rlist := None; SocketDriverBase.elist := false |} s1
     = Some s2 /\
     SocketDriverBase.recv_thread s2 = false /\
     SocketDriverBase.closed (SocketDriverBase.device_sock s2) = false /\
     SocketDriverBase.connected s2 = true) /\
  SocketDriverBase.shutdown_requested (SocketDriverBase.close_device s)
  = false /\
  SocketDriverBase.closed
    (SocketDriverBase.device_sock (SocketDriverBase.close_device s)) = true /\
  SocketDriverBase.connected (SocketDriverBase.close_device s) = false.
Proof.
  intros (Hc & Hs & Ht & Hd). unfold SocketDriverBase.shutdown.
  rewrite Hc. simpl. repeat split; try assumption.
  unfold SocketDriverBase._listen_recv. simpl. rewrite Ht, Hs. simpl.
  eexists. split; [reflexivity|]. simpl. repeat split; assumption.
Qed.

Lemma shutdown_leaves_socket_open_witness :
  SocketDriverBase.live SocketDriverBase.connected_link /\
  SocketDriverBase.closed
    (SocketDriverBase.device_sock
       (SocketDriverBase.shutdown SocketDriverBase.connected_link)) = false /\
  SocketDriverBase.connected
    (SocketDriverBase.shutdown SocketDriverBase.connected_link) = true.
Proof.
  assert (Hlive : SocketDriverBase.live SocketDriverBase.connected_link).
  { repeat split. }
  split; [exact Hlive|].
  destruct (shutdown_leaves_socket_open Samples.EOL
              SocketDriverBase.connected_link Hlive)
    as (_ & Hsock & Hconn & _).
  split; [exact Hsock | exact Hconn].
Defined.

(** ** Acquisition engine *)

Section EngineFacts.
Import CameraBase.
Variable BASE_PATH : string.
Variable str_format : string -> Z -> string.

Lemma exec_app (evs1 evs2 : list event) (s : state) :
  exec BASE_PATH str_format (evs1 ++ evs2) s
= s1 ← exec BASE_PATH str_format evs1 s; exec BASE_PATH str_format evs2 s1.
Proof.
  revert s. induction evs1 as [|ev evs1 IH]; intros s; simpl; [done|].
  destruct (step BASE_PATH str_format ev s) as [s1|]; simpl; [apply IH|done].
Qed.

Lemma next_frame_call (op : device_op) (s : state) :
  next_frame (call op s)
  = (next_frame s + if decide (op = DReadout) then 1 else 0)%nat.
Proof.
  unfold next_frame, call. simpl. rewrite filter_app, length_app.
  f_equal. rewrite filter_cons. destruct (decide (op = DReadout)); done.
Qed.

(** Loop threads that find no trigger once the acquisition has been
    ended leave one after the other. *)
Lemma exec_idle_loops (n : nat) (s : state) :
  do_acquire s = false -> end_acquisition s = true -> armed s = false ->
  loop_threads s = n ->
  exists s',
    exec BASE_PATH str_format (repeat Loop n) s = Some s' /\
    loop_threads s' = 0%nat /\ armed s' = false /\
    device s' = device s ++ repeat DDisarm n /\
    file_writer s' = file_writer s /\
    file_streamer s' = file_streamer s /\
    auto_armed s' = auto_armed s /\ rolling s' = rolling s.
Proof.
  revert s. induction n as [|n IH]; intros s Hdo Hend Harm Hn.
  - exists s. simpl. rewrite app_nil_r. done.
  - destruct (IH (loop_exit s)) as (s' & Hrun & Hl & Ha & Hd & Hw & Hs & Hau & Hr).
    + simpl. exact Hdo.
    + reflexivity.
    + reflexivity.
    + simpl. by rewrite Hn.
    + exists s'. split.
      * simpl. unfold acquisition_loop. rewrite Hn, Hdo, Hend. simpl.
        exact Hrun.
      * split; [done|]. split; [done|]. split; [|done].
        rewrite Hd. simpl. by rewrite <- app_assoc.
Qed.

(** What [arm] changes and what it leaves alone. *)
Lemma arm_spec (t : option Q) (n : option Z) (s : state) :
  let s' := arm t n s in
  armed s' = true /\
  loop_threads s' = S (loop_threads s) /\
  device s' = device s ++ [DArm] /\
  in_scan s' = bool_decide (scan_path (_experiment s) <> None) /\
  _scan_path s' = scan_path (_experiment s) /\
  _experiment s' = _experiment s /\
  rolling s' = rolling s /\ auto_armed s' = auto_armed s /\
  end_acquisition s' = end_acquisition s /\
  do_acquire s' = do_acquire s /\ acquire_done s' = acquire_done s /\
  file_writer s' = file_writer s /\ file_streamer s' = file_streamer s /\
  filename s' = filename s.
Proof.
  unfold arm. destruct t as [t|], n as [n|]; simpl;
    repeat case_match; simpl; repeat split; reflexivity.
Qed.


Lemma next_frame_trigger (s : state) :
  next_frame (set_acquire_done true (call DTrigger (set_do_acquire false s)))
  = next_frame s.
Proof.
  change (next_frame (call DTrigger s) = next_frame s).
  rewrite next_frame_call. simpl. lia.
Qed.



(** A pass of the loop while rolling: the frame goes to the broadcast
    sink only, and the next trigger is signalled at once. *)
Lemma loop_rolling (s : state) :
  rolling s = true -> do_acquire s = true -> loop_threads s <> 0%nat ->
  exists s',
    acquisition_loop s = Some s' /\
    rolling s' = true /\ do_acquire s' = true /\ acquire_done s' = true /\
    loop_threads s' = loop_threads s /\
    file_writer s' = file_writer s /\
    file_streamer s' = file_streamer s ++ [next_frame s] /\
    next_frame s' = S (next_frame s) /\
    armed s' = armed s /\ auto_armed s' = auto_armed s /\
    filename s' = filename s /\ end_acquisition s' = end_acquisition s.
Proof.
  intros Hroll Hdo Hn. unfold acquisition_loop.
  destruct (loop_threads s) as [|k] eqn:Hk; [done|].
  rewrite Hdo. cbn [negb]. cbv zeta. rewrite next_frame_trigger.
  cbn [rolling set_file_streamer call set_device set_acquire_done
       set_do_acquire].
  rewrite Hroll. eexists. split; [reflexivity|].
  cbn. rewrite Hk. repeat split; try reflexivity; [exact Hroll|].
  unfold next_frame. rewrite !filter_app, !length_app. simpl. lia.
Qed.

Lemma exec_rolling_loops (n : nat) (s : state) :
  rolling s = true -> do_acquire s = true -> loop_threads s <> 0%nat ->
  exists s',
    exec BASE_PATH str_format (repeat Loop n) s = Some s' /\
    rolling s' = true /\ do_acquire s' = true /\
    loop_threads s' = loop_threads s /\
    file_writer s' = file_writer s /\
    file_streamer s' = file_streamer s ++ seq (next_frame s) n /\
    next_frame s' = (next_frame s + n)%nat /\
    armed s' = armed s /\ auto_armed s' = auto_armed s /\
    filename s' = filename s /\ end_acquisition s' = end_acquisition s.
Proof.
  revert s. induction n as [|n IH]; intros s Hroll Hdo Hn.
  - exists s. simpl. rewrite app_nil_r, Nat.add_0_r. done.
  - destruct (loop_rolling s Hroll Hdo Hn)
      as (s1 & Hstep & Hr1 & Hdo1 & _ & Hl1 & Hw1 & Hs1 & Hf1 & Ha1 & Hau1
          & Hfn1 & He1).
    destruct (IH s1 Hr1 Hdo1) as (s' & Hrun & Hr & Hd & Hl & Hw & Hs & Hf
                                  & Ha & Hau & Hfn & He); [congruence|].
    exists s'. split.
    { simpl. rewrite Hstep. exact Hrun. }
    split; [done|]. split; [done|]. split; [congruence|].
    split; [congruence|]. split.
    { rewrite Hs, Hs1, Hf1. simpl. by rewrite <- app_assoc. }
    split; [lia|]. repeat split; congruence.
Qed.


(** A pass of the loop with a trigger pending on an engine that is
    neither rolling nor automatically armed: the frame goes to both
    sinks and the thread stays in the loop. *)
Lemma loop_store_rearm (s : state) :
  do_acquire s = true -> rolling s = false -> auto_armed s = false ->
  loop_threads s <> 0%nat ->
  exists s',
    acquisition_loop s = Some s' /\
    do_acquire s' = false /\ rolling s' = false /\
    loop_threads s' = loop_threads s /\
    armed s' = armed s /\ end_acquisition s' = end_acquisition s /\
    file_writer s' = file_writer s ++ [(filename s, next_frame s)] /\
    file_streamer s' = file_streamer s ++ [next_frame s].
Proof.
  intros Hdo Hroll Hauto Hn. unfold acquisition_loop.
  destruct (loop_threads s) as [|k] eqn:Hk; [done|].
  rewrite Hdo. cbn [negb]. cbv zeta. rewrite next_frame_trigger.
  cbn [rolling set_file_streamer call set_device set_acquire_done
       set_do_acquire auto_armed set_file_writer].
  rewrite Hroll, Hauto. eexists. split; [reflexivity|].
  cbn. rewrite Hk. repeat split; try reflexivity. exact Hroll.
Qed.


(** The engine right after [roll(True)] on a fresh engine. *)
Lemma roll_on_init (c : settings) (l : ledger) (fps : option Q) :
  let s := roll (Some true) fps (init c l) in
  rolling s = true /\ do_acquire s = true /\ loop_threads s = 1%nat /\
  armed s = true /\ auto_armed s = false /\ end_acquisition s = false /\
  filename s = None /\ file_writer s = [] /\ file_streamer s = [] /\
  next_frame s = 0%nat.
Proof.
  unfold roll. cbn [rolling init]. cbv zeta.
  set (s0 := set_do_acquire true _).
  assert (Harmed : armed s0 = false).
  { unfold s0. cbn [armed set_do_acquire set_config set_rolling].
    destruct (negb _); reflexivity. }
  rewrite Harmed. cbn [negb].
  destruct (arm_spec None None s0)
    as (Ha & Hl & Hd & _ & _ & _ & Hr & Hau & He & Hdo & _ & Hw & Hst & Hf).
  unfold next_frame. rewrite Ha, Hl, Hd, Hr, Hau, He, Hdo, Hw, Hst, Hf.
  unfold s0.
  cbn [rolling auto_armed end_acquisition do_acquire loop_threads device
       file_writer file_streamer filename
       set_do_acquire set_config set_rolling].
  destruct (negb _); cbn; repeat split; reflexivity.
Qed.

(** C5.  From a fresh engine, [roll(True)], any number of passes of the
    loop, then [roll(False)]: the passes made while rolling hand their
    frames to the broadcast sink only, but the trigger signalled by the
    last of them (or by [roll] itself) is still pending when rolling
    stops, so the loop runs one more cycle, not rolling, and hands that
    frame to the storage sink, under the stale file name.  The engine
    ends disarmed with one stored frame. *)
Theorem roll_on_off_stores_one_frame (c : settings) (l : ledger) (n : nat) :
  exists s',
    exec BASE_PATH str_format
      (Roll (Some true) None :: repeat Loop n
       ++ [Roll (Some false) None; Loop; Loop]) (init c l) = Some s' /\
    file_writer s' = [(None, n)] /\
    file_streamer s' = seq 0 (S n) /\
    armed s' = false /\ rolling s' = false /\ loop_threads s' = 0%nat.
Proof.
  destruct (roll_on_init c l None)
    as (Hr0 & Hdo0 & Hl0 & Ha0 & Hau0 & He0 & Hf0 & Hw0 & Hs0 & Hn0).
  set (s0 := roll (Some true) None (init c l)) in *.
  destruct (exec_rolling_loops n s0 Hr0 Hdo0)
    as (s1 & Hrun1 & Hr1 & Hdo1 & Hl1 & Hw1 & Hs1 & Hn1 & Ha1 & Hau1
        & Hf1 & He1); [lia|].
  set (s2 := roll (Some false) None s1).
  assert (Hs2 : s2 = disarm (set_rolling false s1)).
  { unfold s2, roll. by rewrite Hr1. }
  destruct (loop_store_rearm s2)
    as (s3 & Hstep3 & Hdo3 & Hr3 & Hl3 & Ha3 & He3 & Hw3 & Hs3).
  { rewrite Hs2. exact Hdo1. }
  { rewrite Hs2. reflexivity. }
  { rewrite Hs2. cbn. congruence. }
  { rewrite Hs2. cbn. lia. }
  destruct (exec_idle_loops 1 s3)
    as (s4 & Hrun4 & Hl4 & Ha4 & _ & Hw4 & Hs4 & _ & Hr4).
  { exact Hdo3. }
  { rewrite He3, Hs2. reflexivity. }
  { rewrite Ha3, Hs2. reflexivity. }
  { rewrite Hl3, Hs2. cbn. congruence. }
  exists s4. split.
  { cbn [exec step]. fold s0. cbn [mbind option_bind].
    rewrite exec_app, Hrun1. cbn [mbind option_bind exec step].
    fold s2. rewrite Hstep3. cbn [mbind option_bind]. exact Hrun4. }
  assert (Hframe : next_frame s2 = n).
  { rewrite Hs2. unfold disarm. cbv zeta.
    change (next_frame (call DDisarm (set_rolling false s1)) = n).
    rewrite next_frame_call. simpl.
    change (next_frame (set_rolling false s1)) with (next_frame s1). lia. }
  split.
  { rewrite Hw4, Hw3, Hframe, Hs2.
    change (file_writer (disarm (set_rolling false s1)))
      with (file_writer s1).
    change (filename (disarm (set_rolling false s1))) with (filename s1).
    rewrite Hw1, Hw0, Hf1, Hf0. reflexivity. }
  split.
  { rewrite Hs4, Hs3, Hframe, Hs2.
    change (file_streamer (disarm (set_rolling false s1)))
      with (file_streamer s1).
    rewrite Hs1, Hs0, Hn0, seq_S. reflexivity. }
  split; [exact Ha4|]. split; [rewrite Hr4; exact Hr3 | exact Hl4].
Qed.
End EngineFacts.




(** * Further properties *)

(** ** Reassembly of a reply from partial reads *)

Section RecvAll.
Import SocketDriverBase.
Variable EOL : bytes.

Lemma recv_all_loop_spec (chunks : list bytes) (ret d : bytes)
    (rest : list bytes) :
  _recv_all_loop EOL ret chunks = Some (d, rest) <->
  exists used,
    chunks = used ++ rest /\ d = ret ++ concat used /\
    endswith d EOL = true /\
    forall p, p `prefix_of` used -> p <> used ->
              endswith (ret ++ concat p) EOL = false.
Proof.
  revert ret. induction chunks as [|c cs IH]; intros ret.
  - simpl. destruct (endswith ret EOL) eqn:Hend; split.
    + intros [= <- <-]. exists []. simpl. rewrite app_nil_r.
      split; [reflexivity|]. split; [reflexivity|]. split; [exact Hend|].
      intros p Hp Hne. apply prefix_nil_inv in Hp. done.
    + intros (used & Hch & -> & _ & _).
      symmetry in Hch. apply app_eq_nil in Hch as [-> ->].
      simpl. by rewrite app_nil_r.
    + discriminate.
    + intros (used & Hch & -> & Hd & _).
      symmetry in Hch. apply app_eq_nil in Hch as [-> ->].
      simpl in Hd. rewrite app_nil_r in Hd. congruence.
  - cbn [_recv_all_loop]. destruct (endswith ret EOL) eqn:Hend; split.
    + intros [= <- <-]. exists []. simpl. rewrite app_nil_r.
      split; [reflexivity|]. split; [reflexivity|]. split; [exact Hend|].
      intros p Hp Hne. apply prefix_nil_inv in Hp. done.
    + intros (used & Hch & -> & _ & Hmin).
      destruct used as [|u used].
      * simpl in *. subst rest. by rewrite app_nil_r.
      * specialize (Hmin [] (prefix_nil _)). simpl in Hmin.
        rewrite app_nil_r in Hmin. rewrite Hmin in Hend; [done|done].
    + intros Hrun. apply IH in Hrun as (used & -> & -> & Hd & Hmin).
      exists (c :: used). simpl. rewrite app_assoc.
      split; [reflexivity|]. split; [reflexivity|]. split; [exact Hd|].
      intros p Hp Hne. destruct p as [|c' p].
      * simpl. by rewrite app_nil_r.
      * apply prefix_cons_inv_1 in Hp as Hc. subst c'.
        apply prefix_cons_inv_2 in Hp. simpl. rewrite app_assoc.
        apply Hmin; [done|]. intros ->. done.
    + intros (used & Hch & -> & Hd & Hmin).
      destruct used as [|u used].
      * simpl in Hd. rewrite app_nil_r in Hd. congruence.
      * simpl in Hch. injection Hch as <- ->.
        apply IH. exists used.
        split; [reflexivity|]. split; [simpl; by rewrite app_assoc|].
        split; [exact Hd|].
        intros p Hp Hne. rewrite <- app_assoc.
        apply (Hmin (c :: p)); [by apply prefix_cons|].
        intros [= ->]. done.
Qed.

(** X1.  When the first read returns data, [_recv_all] returns exactly
    when some run of the following reads completes the terminator: the
    result is the first read followed by those reads, it ends with the
    terminator, no shorter run of reads does, and the reads after it are
    left untouched. *)
Theorem recv_all_reassembles (c : bytes) (chunks : list bytes) (d : bytes)
    (rest : list bytes) :
  c <> [] ->
  (_recv_all EOL (c :: chunks) = Some (d, rest) <->
   exists used,
     chunks = used ++ rest /\ d = concat (c :: used) /\
     endswith d EOL = true /\
     forall p, p `prefix_of` used -> p <> used ->
               endswith (concat (c :: p)) EOL = false).
Proof.
  intros Hc. unfold _recv_all.
  rewrite bool_decide_eq_false_2 by done. apply recv_all_loop_spec.
Qed.
End RecvAll.

Lemma recv_all_reassembles_witness :
  [x34] <> ([] : SocketDriverBase.bytes) /\
  SocketDriverBase._recv_all Samples.EOL [[x34]; [x32; x0a]; [x0a]]
  = Some ([x34; x32; x0a], [[x0a]]).
Proof.
  split; [discriminate|].
  apply (recv_all_reassembles Samples.EOL [x34] [[x32; x0a]; [x0a]]);
    [discriminate|].
  exists [[x32; x0a]]. split; [reflexivity|]. split; [reflexivity|].
  split; [vm_compute; reflexivity|].
  intros p Hp Hne. destruct p as [|q p].
  - vm_compute. reflexivity.
  - apply prefix_cons_inv_1 in Hp as Hq. subst q.
    apply prefix_cons_inv_2, prefix_nil_inv in Hp. subst p. done.
Defined.

(** ** Connecting the link *)

Section ConnectFacts.
Import SocketDriverBase LinkLifecycle.
Variable strerror : Z -> string.
Variable connect_ex : nat -> Z.
Variable connected_message : string.

(** X2.  [connect_device], called while no receiver is running, makes at
    most two connection attempts.  If one of them succeeds the link is
    connected on a fresh socket with an empty buffer, a cleared flag and
    a receiver running, and each failed attempt before it is logged; the
    shutdown request and the initialisation mark are left as they were.
    If both fail it raises [DeviceException], logs the two errors and
    the failure, starts no receiver and leaves [connected] as it was. *)
Theorem connect_device_retries (s : state) :
  recv_thread s = false ->
  ((connect_ex 0%nat = 0 \/ connect_ex 1%nat = 0) ->
   exists s',
     connect_device strerror connect_ex connected_message s = (Ok (), s') /\
     connected s' = true /\ recv_thread s' = true /\
     recv_buffer s' = [] /\ recv_flag s' = false /\
     device_sock s' = {| closed := false; sent := [] |} /\
     shutdown_requested s' = shutdown_requested s /\
     initialized s' = initialized s /\
     logger s'
     = logger s
       ++ (if decide (connect_ex 0%nat = 0) then []
           else [(CRITICAL, strerror (connect_ex 0%nat))])
       ++ [(INFO, connected_message)]) /\
  (connect_ex 0%nat <> 0 -> connect_ex 1%nat <> 0 ->
   exists s',
     connect_device strerror connect_ex connected_message s
     = (Raise (DeviceException "Can't connect to device"), s') /\
     connected s' = connected s /\ recv_thread s' = false /\
     logger s'
     = logger s
       ++ [(CRITICAL, strerror (connect_ex 0%nat));
           (CRITICAL, strerror (connect_ex 1%nat));
           (CRITICAL, "Can't connect to device")]).
Proof.
  intros Hthread. unfold connect_device. cbn [NUM_CONNECTION_RETRY pred].
  cbn [connect_loop]. split.
  - intros Hok. destruct (decide (connect_ex 0%nat = 0)) as [H0|H0].
    + apply Z.eqb_eq in H0 as E0. rewrite E0. cbn. rewrite E0. cbn.
      eexists. split; [reflexivity|]. cbn. repeat split.
    + destruct Hok as [Hok|Hok]; [done|].
      apply Z.eqb_neq in H0 as E0. apply Z.eqb_eq in Hok as E1.
      rewrite E0, E1. cbn. rewrite E1. cbn.
      eexists. split; [reflexivity|]. cbn. rewrite <- app_assoc.
      repeat split.
  - intros H0 H1.
    apply Z.eqb_neq in H0 as E0. apply Z.eqb_neq in H1 as E1.
    rewrite E0, E1. cbn. rewrite E1. cbn.
    eexists. split; [reflexivity|]. cbn.
    rewrite <- !app_assoc. repeat split. exact Hthread.
Qed.

Lemma connect_device_ok (s s' : state) :
  connect_device strerror connect_ex connected_message s = (Ok (), s') ->
  connected s' = true /\ recv_thread s' = true /\
  closed (device_sock s') = false /\
  shutdown_requested s' = shutdown_requested s.
Proof.
  unfold connect_device.
  destruct (connect_loop _ _ _ _ _) as [e s1] eqn:Hloop.
  assert (Hs1 : shutdown_requested s1 = shutdown_requested s /\
                closed (device_sock s1) = false).
  { revert Hloop. cbn [NUM_CONNECTION_RETRY pred connect_loop].
    repeat case_match; intros [= <- <-]; split; reflexivity. }
  destruct Hs1 as [Hreq Hsock].
  destruct (negb (e =? 0)); [discriminate|].
  intros [= <-]. cbn. repeat split; assumption.
Qed.

(** X3.  [connect_device] does not clear a shutdown request: on a link
    that was shut down, the receiver started by a successful
    reconnection leaves its loop at its first pass, whatever [select]
    reports, while the link stays marked connected. *)
Theorem reconnect_after_shutdown (EOL : bytes) (s s' : state) :
  recv_thread s = false -> shutdown_requested s = true ->
  connect_device strerror connect_ex connected_message s = (Ok (), s') ->
  (exists s2,
     _listen_recv EOL {| rlist := None; elist := false |} s' = Some s2) /\
  forall sel s2,
    _listen_recv EOL sel s' = Some s2 ->
    recv_thread s2 = false /\ connected s2 = true.
Proof.
  intros _ Hshut Hconn.
  destruct (connect_device_ok s s' Hconn) as (Hc & Ht & Hs & Hreq).
  rewrite Hshut in Hreq. split.
  - unfold _listen_recv. rewrite Ht, Hs. cbn. rewrite Hreq. eauto.
  - intros sel s2 Hpass.
    destruct (listen_after_shutdown EOL sel s' s2 Hreq Hpass)
      as (Ht2 & _ & Hc2).
    split; [exact Ht2 | congruence].
Qed.
End ConnectFacts.

Lemma connect_device_retries_witness :
  exists s',
    LinkLifecycle.connect_device MoreSamples.strerror MoreSamples.second_try
      "connected" LinkLifecycle.new_link = (Ok (), s') /\
    SocketDriverBase.live s' /\
    SocketDriverBase.logger s'
    = [(CRITICAL, "Connection refused"); (INFO, "connected")].
Proof.
  destruct (connect_device_retries MoreSamples.strerror
              MoreSamples.second_try "connected" LinkLifecycle.new_link)
    as [Hok _]; [reflexivity|].
  destruct Hok as (s' & Hrun & Hc & Ht & _ & _ & Hsock & Hreq & _ & Hlog);
    [right; reflexivity|].
  exists s'. split; [exact Hrun|]. split.
  - split; [exact Hc|]. split; [by rewrite Hsock|]. split; [exact Ht|].
    exact Hreq.
  - exact Hlog.
Defined.

Lemma reconnect_after_shutdown_witness :
  exists s' s2,
    LinkLifecycle.connect_device MoreSamples.strerror MoreSamples.accepts
      "connected" MoreSamples.shut_down_link = (Ok (), s') /\
    SocketDriverBase._listen_recv Samples.EOL
      {| SocketDriverBase.rlist := Some [Samples.line_ok];
         SocketDriverBase.elist := false |} s' = Some s2 /\
    SocketDriverBase.recv_thread s2 = false /\
    SocketDriverBase.connected s2 = true.
Proof.
  eexists _, _. split; [reflexivity|].
  split; [vm_compute; reflexivity|].
  refine (proj2 (reconnect_after_shutdown MoreSamples.strerror
            MoreSamples.accepts "connected" Samples.EOL
            MoreSamples.shut_down_link _ eq_refl eq_refl eq_refl)
            {| SocketDriverBase.rlist := Some [Samples.line_ok];
               SocketDriverBase.elist := false |} _ _).
  vm_compute. reflexivity.
Defined.

(** ** Exchanges with a device that only answers commands *)

Section Exchanges.
Import SocketDriverBase LinkLifecycle.
Variable EOL : bytes.

(** X4.  On a live link with an empty buffer, when data only arrives
    between a command and the moment its reply is taken, every reply is
    exactly the data received for its own command, the commands are
    written to the socket in order, and the buffer is empty again after
    the last reply. *)
Theorem exchanges_reply_own_data (xs : list (bytes * list (list bytes)))
    (s : state) :
  live s -> recv_buffer s = [] ->
  Forall (fun x => x.2 <> [] /\
                   Forall (fun chunks => is_Some (_recv_all EOL chunks)) x.2)
         xs ->
  exists s',
    exec EOL (exchanges xs) s
    = Some (map (fun x => received_all EOL x.2) xs, s') /\
    live s' /\ recv_buffer s' = [] /\
    sent (device_sock s') = sent (device_sock s) ++ map fst xs.
Proof.
  intros Hlive Hbuf Hall. revert s Hlive Hbuf.
  induction Hall as [|[cmd during] xs [Hne Hok] Hall IH]; intros s Hlive Hbuf.
  - exists s. simpl. by rewrite app_nil_r.
  - simpl in Hne, Hok.
    destruct (device_cmd_send_live cmd s Hlive)
      as (sa & Hsend & Hla & Hba & Hfa & Hsa).
    destruct (exec_arrivals EOL during sa Hla Hok)
      as (sb & Hrun & Hlb & Hbb & Hfb & Hsb).
    destruct (device_cmd_reply_live sb Hlb (Hfb Hne))
      as (sc & Hrep & Hlc & Hbc & Hsc).
    destruct (IH sc Hlc Hbc) as (s' & Hrest & Hl' & Hb' & Hs').
    exists s'. split; [|split; [done|split; [done|]]].
    + unfold exchanges. cbn [map concat]. unfold exchange at 1.
      cbn [fst snd].
      rewrite <- app_comm_cons, <- app_assoc. cbn [app exec].
      rewrite Hsend, Hrun.
      cbn [app exec]. rewrite Hrep. cbn [mbind option_bind].
      fold (exchanges xs). rewrite Hrest. cbn.
      rewrite Hbb, Hba, Hbuf. reflexivity.
    + rewrite Hs', Hsc, Hsb, Hsa. cbn. by rewrite <- app_assoc.
Qed.
End Exchanges.

Lemma exchanges_reply_own_data_witness :
  exists s',
    SocketDriverBase.exec Samples.EOL
      (LinkLifecycle.exchanges
         [(Samples.cmd_move, [[Samples.line_ok]]);
          (Samples.cmd_pos, [[[x34]; [x32; x0a]]])])
      SocketDriverBase.connected_link
    = Some ([Samples.line_ok; Samples.line_val], s') /\
    SocketDriverBase.recv_buffer s' = [].
Proof.
  destruct (exchanges_reply_own_data Samples.EOL
              [(Samples.cmd_move, [[Samples.line_ok]]);
               (Samples.cmd_pos, [[[x34]; [x32; x0a]]])]
              SocketDriverBase.connected_link)
    as (s' & Hrun & _ & Hbuf & _).
  - repeat split.
  - reflexivity.
  - repeat constructor; try discriminate; vm_compute; eauto.
  - exists s'. split; [exact Hrun | exact Hbuf].
Defined.

(** ** Keep-alive *)

Section KeepAliveFacts.
Import SocketDriverBase LinkLifecycle.
Variable wait_call : state -> wait_result * state.

(** X5.  When the keep-alive call of a connected, initialised link ends
    in a [DeviceException], the pass closes the socket and marks the link
    disconnected without ending the keep-alive thread; from then on the
    keep-alive passes do nothing, [device_cmd] raises "Device not
    connected." without writing to the socket, and [stop] raises "Not
    connected.". *)
Theorem keep_alive_device_gone (k : supervised) (s1 : state) :
  keep_alive_thread k = true ->
  connected (link k) = true -> initialized (link k) = true ->
  wait_call (link k) = (DeviceGone, s1) ->
  let k' := _keep_alive wait_call k in
  connected (link k') = false /\
  closed (device_sock (link k')) = true /\
  keep_alive_thread k' = true /\
  (forall n, keep_alive_passes wait_call n k' = k') /\
  (forall cmd,
     device_cmd_send cmd (link k')
     = (Raise (RuntimeError "Device not connected."), link k')) /\
  stop (link k') = (Raise (RuntimeError "Not connected."), link k').
Proof.
  intros Ht Hc Hi Hwait. unfold _keep_alive.
  rewrite Ht, Hc, Hi, Hwait. cbn.
  split; [reflexivity|]. split; [reflexivity|]. split; [reflexivity|].
  split; [|split; reflexivity].
  induction n as [|n IH]; [reflexivity|]. cbn [keep_alive_passes].
  exact IH.
Qed.
End KeepAliveFacts.

Lemma keep_alive_device_gone_witness :
  let k' := LinkLifecycle._keep_alive MoreSamples.gone
              MoreSamples.supervised_link in
  SocketDriverBase.connected (LinkLifecycle.link k') = false /\
  SocketDriverBase.device_cmd_send Samples.cmd_pos (LinkLifecycle.link k')
  = (Raise (RuntimeError "Device not connected."), LinkLifecycle.link k').
Proof.
  destruct (keep_alive_device_gone MoreSamples.gone
              MoreSamples.supervised_link SocketDriverBase.connected_link
              eq_refl eq_refl eq_refl eq_refl)
    as (Hc & _ & _ & _ & Hcmd & _).
  split; [exact Hc | exact (Hcmd Samples.cmd_pos)].
Defined.

(** ** Scan numbers written and read back *)

Lemma list_ascii_of_string_app (a b : string) :
  String.list_ascii_of_string (a +:+ b)
  = String.list_ascii_of_string a ++ String.list_ascii_of_string b.
Proof. induction a as [|c a IH]; simpl; [done | by rewrite IH]. Qed.

Lemma digit_char_spec (d : Z) :
  0 <= d < 10 ->
  is_digit (ScanLedger.digit_char d) = true /\
  digit_value (ScanLedger.digit_char d) = d.
Proof.
  intros Hd. unfold ScanLedger.digit_char, digit_value.
  rewrite is_digit_range, nat_ascii_embedding by lia. lia.
Qed.

Lemma decimal_snoc (l : list ascii) (c : ascii) :
  decimal (l ++ [c]) = 10 * decimal l + digit_value c.
Proof. unfold decimal. by rewrite foldl_app. Qed.

(** The digits produced for [n], in front of [acc]. *)
Lemma decimal_digits_spec (fuel : nat) (n : Z) (acc : list ascii) :
  0 <= n < 2 ^ Z.of_nat fuel -> (1 <= fuel)%nat ->
  exists ds,
    ScanLedger.decimal_digits fuel n acc = ds ++ acc /\
    ds <> [] /\ forallb is_digit ds = true /\ decimal ds = n /\
    forall k : nat, n < 10 ^ Z.of_nat k -> (1 <= k)%nat ->
                    (length ds <= k)%nat.
Proof.
  revert n acc. induction fuel as [|fuel IH]; intros n acc Hn Hfuel.
  - lia.
  - cbn [ScanLedger.decimal_digits].
    assert (Hmod : 0 <= n mod 10 < 10) by (apply Z.mod_pos_bound; lia).
    destruct (digit_char_spec _ Hmod) as [Hdig Hval].
    set (c := ScanLedger.digit_char (n mod 10)) in *.
    destruct (Z.ltb_spec n 10) as [Hlt|Hge].
    + exists [c].
      split; [reflexivity|]. split; [discriminate|].
      split; [cbn [forallb]; by rewrite Hdig|]. split.
      * unfold decimal. cbn [foldl]. rewrite Hval, Z.mod_small; lia.
      * intros k _ Hk. cbn [length]. lia.
    + destruct (IH (n / 10) (c :: acc))
        as (ds & Hrun & Hne & Hall & Hdec & Hlen).
      { rewrite Nat2Z.inj_succ, Z.pow_succ_r in Hn by lia. split.
        - apply Z.div_pos; lia.
        - apply Z.div_lt_upper_bound; lia. }
      { destruct fuel; [|lia]. change (2 ^ Z.of_nat 1) with 2 in Hn. lia. }
      exists (ds ++ [c]).
      split; [by rewrite Hrun, <- app_assoc|]. split.
      { intros H. by apply app_eq_nil in H as [_ ?]. }
      split.
      { rewrite forallb_app, Hall. cbn [forallb]. by rewrite Hdig. }
      split.
      { rewrite decimal_snoc, Hdec, Hval.
        pose proof (Z.div_mod n 10). lia. }
      intros k Hk Hk1. rewrite length_app. cbn [length].
      destruct k as [|k]; [lia|].
      destruct k as [|k].
      { change (10 ^ Z.of_nat 1) with 10 in Hk. lia. }
      assert (length ds <= S k)%nat; [|lia].
      apply Hlen; [|lia].
      rewrite (Nat2Z.inj_succ (S k)), Z.pow_succ_r in Hk by lia.
      apply Z.div_lt_upper_bound; lia.
Qed.

Lemma digits_of_spec (n : Z) :
  0 <= n ->
  ScanLedger.digits_of n <> [] /\
  forallb is_digit (ScanLedger.digits_of n) = true /\
  decimal (ScanLedger.digits_of n) = n /\
  forall k : nat, n < 10 ^ Z.of_nat k -> (1 <= k)%nat ->
                  (length (ScanLedger.digits_of n) <= k)%nat.
Proof.
  intros Hn. unfold ScanLedger.digits_of.
  destruct (decimal_digits_spec (S (Z.to_nat (Z.log2 n))) n [])
    as (ds & Hrun & Hrest).
  - split; [done|]. rewrite Nat2Z.inj_succ, Z2Nat.id by apply Z.log2_nonneg.
    destruct (decide (n = 0)) as [->|Hne]; [done|].
    apply Z.log2_spec. lia.
  - lia.
  - rewrite app_nil_r in Hrun. rewrite Hrun. exact Hrest.
Qed.

Lemma zero_pad_spec (w : nat) (l : list ascii) :
  forallb is_digit l = true ->
  forallb is_digit (ScanLedger.zero_pad w l) = true /\
  decimal (ScanLedger.zero_pad w l) = decimal l /\
  ((length l <= w)%nat -> length (ScanLedger.zero_pad w l) = w).
Proof.
  intros Hall. unfold ScanLedger.zero_pad.
  assert (Hk : forall k,
    forallb is_digit (repeat "0"%char k ++ l) = true /\
    decimal (repeat "0"%char k ++ l) = decimal l /\
    length (repeat "0"%char k ++ l) = (k + length l)%nat).
  { induction k as [|k (Ha & Hd & Hl)]; [done|].
    split; [simpl; exact Ha|]. split; [|simpl; by rewrite Hl].
    unfold decimal in *. simpl. exact Hd. }
  destruct (Hk (w - length l)%nat) as (Ha & Hd & Hl).
  split; [done|]. split; [done|]. intros Hle. rewrite Hl. lia.
Qed.

(** On a non-negative number, [int] reads back what [06d] writes. *)
Lemma py_int_format_06d (n : Z) :
  0 <= n -> py_int (ScanLedger.format_06d n) = Some n.
Proof.
  intros Hn. unfold ScanLedger.format_06d.
  destruct (Z.ltb_spec n 0) as [?|_]; [lia|].
  destruct (digits_of_spec n Hn) as (Hne & Hall & Hdec & _).
  destruct (zero_pad_spec 6 _ Hall) as (Hpall & Hpdec & _).
  rewrite py_int_digits;
    rewrite String.list_ascii_of_string_of_list_ascii; try done.
  - by rewrite Hpdec, Hdec.
  - unfold ScanLedger.zero_pad. intros H.
    by apply app_eq_nil in H as [_ ?].
Qed.

Lemma format_06d_inj (n m : Z) :
  0 <= n -> 0 <= m -> ScanLedger.format_06d n = ScanLedger.format_06d m ->
  n = m.
Proof.
  intros Hn Hm Heq. pose proof (py_int_format_06d n Hn) as H1.
  rewrite Heq, (py_int_format_06d m Hm) in H1. congruence.
Qed.

Lemma six_digit_prefix_format_06d (n : Z) (rest : string) :
  0 <= n < 10 ^ 6 ->
  six_digit_prefix (ScanLedger.format_06d n +:+ rest) = Some n.
Proof.
  intros [Hn Hlt].
  unfold six_digit_prefix, ScanLedger.format_06d.
  destruct (Z.ltb_spec n 0) as [?|_]; [lia|].
  destruct (digits_of_spec n Hn) as (Hne & Hall & Hdec & Hlen).
  destruct (zero_pad_spec 6 _ Hall) as (Hpall & Hpdec & Hplen).
  rewrite list_ascii_of_string_app,
    String.list_ascii_of_string_of_list_ascii.
  rewrite take_app_length' by (symmetry; apply Hplen, (Hlen 6%nat); lia).
  rewrite Hplen by (apply (Hlen 6%nat); lia).
  rewrite bool_decide_eq_true_2 by done. rewrite Hpall.
  cbn [andb]. by rewrite Hpdec, Hdec.
Qed.

(** X6.  The six-digit prefix [start_scan] writes in front of a scan
    name is read back by [int(name[:6])] as the same number, for every
    scan number from 0 to 999999, whatever follows the prefix; and on
    every non-negative number [int] reads back what [06d] writes. *)
Theorem scan_number_read_back (n : Z) (rest : string) :
  0 <= n ->
  py_int (ScanLedger.format_06d n) = Some n /\
  (n < 10 ^ 6 ->
   py_int (String.substring 0 6 (ScanLedger.format_06d n +:+ rest))
   = Some n).
Proof.
  intros Hn. split; [by apply py_int_format_06d|].
  intros Hlt. apply py_int_six_digit_prefix.
  by apply six_digit_prefix_format_06d.
Qed.

Lemma scan_number_read_back_witness :
  0 <= 7 /\
  ScanLedger.format_06d 7 = "000007" /\
  ScanLedger.format_06d 1234567 = "1234567" /\
  ScanLedger.format_06d (-4) = "-00004" /\
  py_int (ScanLedger.format_06d 7) = Some 7 /\
  (7 < 10 ^ 6 ->
   py_int (String.substring 0 6
             (ScanLedger.format_06d 7 +:+ "_24-03-02_tomo")) = Some 7).
Proof.
  split; [lia|]. split; [vm_compute; reflexivity|].
  split; [vm_compute; reflexivity|]. split; [vm_compute; reflexivity|].
  apply (scan_number_read_back 7 "_24-03-02_tomo"). lia.
Defined.

(** ** Starting a scan *)

Lemma string_app_assoc (a b c : string) : (a +:+ b) +:+ c = a +:+ b +:+ c.
Proof.
  induction a as [|x a IH]; [done|].
  change (String x ((a +:+ b) +:+ c) = String x (a +:+ b +:+ c)).
  by rewrite IH.
Qed.

Lemma scan_numbers_snoc (entries : list dirent) (ns : list Z) (nm : string)
    (k : Z) :
  Manager.scan_numbers entries = Ok ns ->
  py_int (String.substring 0 6 nm) = Some k ->
  Manager.scan_numbers (entries ++ [{| name := nm; is_dir := true |}])
  = Ok (ns ++ [k]).
Proof.
  intros Hns Hk. revert ns Hns.
  induction entries as [|f rest IH]; intros ns Hns.
  - simpl in *. injection Hns as <-. by rewrite Hk.
  - simpl in *. destruct (is_dir f); [|by apply IH].
    destruct (py_int (String.substring 0 6 (name f))) as [n|]; [|done].
    destruct (Manager.scan_numbers rest) as [ns'|e] eqn:Hrest; [|done].
    simpl in Hns. injection Hns as <-.
    rewrite (IH ns' eq_refl). reflexivity.
Qed.

Lemma py_max_default_snoc (ns : list Z) :
  py_max_default (-1) (ns ++ [py_max_default (-1) ns + 1])
  = py_max_default (-1) ns + 1.
Proof.
  destruct ns as [|x l]; [reflexivity|]. simpl.
  rewrite foldl_app. simpl. lia.
Qed.

(** X7.  A scan started on a ledger that is not running takes the number
    [next_scan] announces, marks the ledger running with the frame
    counter at 0, and creates a directory whose name starts with that
    number; once the directory is listed in the experiment directory,
    [next_scan] announces the following number, so the number just taken
    is not handed out again (for numbers from 0 to 999999). *)
Theorem start_scan_takes_the_number (data_path : string)
    (os_makedirs : FS -> string -> FS) (label : option string)
    (today : string) (l : ScanLedger.ledger) (number : Z) :
  Manager._running (ScanLedger.manager l) = false ->
  Manager.next_scan data_path (ScanLedger.manager l) = Ok (Some number) ->
  0 <= number < 10 ^ 6 ->
  (forall p entries,
     Manager.path (ScanLedger.manager l) = Ok p ->
     Manager.fs (ScanLedger.manager l) !! os_path_join data_path p
     = Some entries ->
     os_makedirs (Manager.fs (ScanLedger.manager l))
       (os_path_join (os_path_join data_path p)
                     (ScanLedger.new_scan_name number today label))
     !! os_path_join data_path p
     = Some (entries
             ++ [{| name := ScanLedger.new_scan_name number today label;
                    is_dir := true |}])) ->
  exists info l' rest,
    ScanLedger.start_scan data_path os_makedirs label today l
    = (Ok info, l') /\
    ScanLedger.info_scan_number info = number /\
    ScanLedger.info_scan_name info
    = ScanLedger.new_scan_name number today label /\
    ScanLedger.new_scan_name number today label
    = ScanLedger.format_06d number +:+ rest /\
    ScanLedger.scan_name l' = Some (ScanLedger.info_scan_name info) /\
    ScanLedger.scan_number l' = Some number /\
    Manager._running (ScanLedger.manager l') = true /\
    ScanLedger.get_counter l' = 0 /\
    Manager.next_scan data_path (ScanLedger.manager l')
    = Ok (Some (number + 1)).
Proof.
  intros Hrun Hnext Hrange Hmk.
  unfold ScanLedger.start_scan. rewrite Hrun, Hnext.
  unfold Manager.next_scan in Hnext.
  destruct (Manager.path (ScanLedger.manager l)) as [p|e] eqn:Hpath;
    [|by destruct e].
  unfold os_scandir in Hnext.
  destruct (Manager.fs (ScanLedger.manager l) !! os_path_join data_path p)
    as [entries|] eqn:Hfs; [|done].
  simpl in Hnext.
  destruct (Manager.scan_numbers entries) as [ns|e] eqn:Hns; [|done].
  simpl in Hnext. injection Hnext as Hnumber.
  assert (Hpath1 : Manager.path
            (ScanLedger.set_counter 0
               (ScanLedger.set_running true (ScanLedger.manager l))) = Ok p)
    by exact Hpath.
  rewrite Hpath1.
  set (rest := match label with
               | Some lb => "_" +:+ today +:+ "_" +:+ lb
               | None => "_" +:+ today
               end).
  set (nm := ScanLedger.new_scan_name number today label).
  assert (Hnm : nm = ScanLedger.format_06d number +:+ rest).
  { unfold nm, rest, ScanLedger.new_scan_name. destruct label; [|done].
    by rewrite !string_app_assoc. }
  eexists _, _, rest. split; [reflexivity|].
  split; [reflexivity|]. split; [reflexivity|]. split; [exact Hnm|].
  split; [reflexivity|].
  split; [reflexivity|]. split; [reflexivity|]. split; [reflexivity|].
  cbn [ScanLedger.manager]. unfold Manager.next_scan.
  match goal with
  | |- context [Manager.path ?m] =>
      change (Manager.path m) with (Manager.path (ScanLedger.manager l))
  end.
  rewrite Hpath. unfold os_scandir. cbn [Manager.fs Manager.set_fs].
  change (Manager.fs (ScanLedger.set_counter 0
            (ScanLedger.set_running true (ScanLedger.manager l))))
    with (Manager.fs (ScanLedger.manager l)).
  change (match label with
          | Some lb => (ScanLedger.format_06d number +:+ "_" +:+ today)
                       +:+ "_" +:+ lb
          | None => ScanLedger.format_06d number +:+ "_" +:+ today
          end) with nm.
  unfold nm at 1. rewrite (Hmk p entries eq_refl Hfs). fold nm.
  cbn [mbind res_bind].
  rewrite (scan_numbers_snoc entries ns nm number Hns).
  - cbn [mbind res_bind]. rewrite <- Hnumber, py_max_default_snoc.
    reflexivity.
  - rewrite Hnm. apply py_int_six_digit_prefix.
    by apply six_digit_prefix_format_06d.
Qed.

Lemma start_scan_takes_the_number_witness :
  exists info l',
    ScanLedger.start_scan Samples.data_path MoreSamples.scan_makedirs
      (Some "tomo") "24-03-05" MoreSamples.sample_ledger = (Ok info, l') /\
    ScanLedger.info_scan_number info = 6 /\
    ScanLedger.info_scan_name info = "000006_24-03-05_tomo" /\
    Manager.next_scan Samples.data_path (ScanLedger.manager l') = Ok (Some 7).
Proof.
  destruct (start_scan_takes_the_number Samples.data_path
              MoreSamples.scan_makedirs (Some "tomo") "24-03-05"
              MoreSamples.sample_ledger 6)
    as (info & l' & rest & Hrun & Hnum & Hname & _ & _ & _ & _ & _ & Hnext).
  - reflexivity.
  - vm_compute. reflexivity.
  - lia.
  - intros p entries Hp Hfs. vm_compute in Hp. injection Hp as <-.
    vm_compute in Hfs. injection Hfs as <-. vm_compute. reflexivity.
  - exists info, l'. split; [exact Hrun|]. split; [exact Hnum|].
    split; [rewrite Hname; vm_compute; reflexivity | exact Hnext].
Defined.

(** ** Frame prefixes during a scan *)

Section ScanSession.
Import ScanLedger.
Variable str_format : string -> Z -> res string.

(** The prefixes handed out from counter value [c] on. *)
Lemma next_prefixes_spec (nm : string) (k : nat) (l : ledger) :
  (forall n, 0 <= n ->
     str_format (nm +:+ "_{0:06d}") n = Ok (nm +:+ "_" +:+ format_06d n)) ->
  Manager._running (manager l) = true ->
  _base_file_name (attrs l) = Some (nm +:+ "_{0:06d}") ->
  0 <= get_counter l ->
  exists l1,
    next_prefixes str_format k l
    = (Ok (map (fun i : nat =>
                  nm +:+ "_" +:+ format_06d (get_counter l + Z.of_nat i))
               (seq 0 k)), l1) /\
    get_counter l1 = get_counter l + Z.of_nat k /\
    Manager._running (manager l1) = true /\
    attrs l1 = attrs l /\
    Manager.path (manager l1) = Manager.path (manager l).
Proof.
  intros Hfmt. revert l. induction k as [|k IH]; intros l Hrun Hbase Hc.
  - exists l. cbn. rewrite Z.add_0_r. done.
  - cbn [next_prefixes]. unfold next_prefix at 1.
    rewrite Hrun, Hbase. cbn [negb].
    rewrite (Hfmt (Manager.counter (manager l)) Hc).
    set (l1 := {| manager := set_counter (Manager.counter (manager l) + 1)
                               (manager l);
                  attrs := attrs l |}).
    destruct (IH l1) as (l2 & Hrun2 & Hc2 & Hr2 & Ha2 & Hp2);
      [exact Hrun | exact Hbase | unfold get_counter in *; cbn; lia |].
    rewrite Hrun2. exists l2. split; [|split; [|done]].
    + f_equal. cbn [seq map]. rewrite Z.add_0_r. f_equal. f_equal.
      rewrite <- seq_shift, map_map. apply map_ext. intros i.
      unfold get_counter. cbn. do 3 f_equal. lia.
    + rewrite Hc2. unfold get_counter. cbn. lia.
Qed.

(** X8.  During a scan whose template takes the frame counter, [k]
    calls of [next_prefix] return [k] pairwise different prefixes, one
    per counter value in increasing order, and advance the counter by
    [k]; [end_scan] then reports that count and stops the scan, after
    which [next_prefix] raises and no scan name is reported. *)
Theorem scan_session_prefixes (nm p : string) (k : nat) (l : ledger) :
  (forall n, 0 <= n ->
     str_format (nm +:+ "_{0:06d}") n = Ok (nm +:+ "_" +:+ format_06d n)) ->
  Manager._running (manager l) = true ->
  _base_file_name (attrs l) = Some (nm +:+ "_{0:06d}") ->
  0 <= get_counter l ->
  Manager.path (manager l) = Ok p ->
  exists prefixes l1 summary l2,
    next_prefixes str_format k l = (Ok prefixes, l1) /\
    prefixes
    = map (fun i : nat =>
             nm +:+ "_" +:+ format_06d (get_counter l + Z.of_nat i))
          (seq 0 k) /\
    NoDup prefixes /\
    get_counter l1 = get_counter l + Z.of_nat k /\
    end_scan l1 = (Ok summary, l2) /\
    sum_count summary = get_counter l + Z.of_nat k /\
    Manager._running (manager l2) = false /\
    scan_name l2 = None /\
    next_prefix str_format l2
    = (Raise (RuntimeError "No scan currently running"), l2).
Proof.
  intros Hfmt Hrun Hbase Hc Hpath.
  destruct (next_prefixes_spec nm k l Hfmt Hrun Hbase Hc)
    as (l1 & Hrun1 & Hc1 & Hr1 & Ha1 & Hp1).
  eexists _, l1, _, _. split; [exact Hrun1|]. split; [reflexivity|].
  split.
  { apply NoDup_fmap_2_strong; [|apply NoDup_seq].
    intros i j _ _ Heq.
    apply String.app_inj, String.app_inj, format_06d_inj in Heq; lia. }
  split; [exact Hc1|].
  unfold end_scan. rewrite Hr1. cbn [negb manager].
  change (Manager.path (set_running false (manager l1)))
    with (Manager.path (manager l1)).
  rewrite Hp1, Hpath. split; [reflexivity|].
  split; [exact Hc1|]. split; [reflexivity|]. split; reflexivity.
Qed.
End ScanSession.

Lemma scan_session_prefixes_witness :
  exists l1 summary l2,
    ScanLedger.next_prefixes MoreSamples.counter_format 3
      MoreSamples.running_ledger
    = (Ok ["000006_24-03-05_000000"; "000006_24-03-05_000001";
           "000006_24-03-05_000002"], l1) /\
    ScanLedger.end_scan l1 = (Ok summary, l2) /\
    ScanLedger.sum_count summary = 3.
Proof.
  destruct (scan_session_prefixes MoreSamples.counter_format
              "000006_24-03-05" "speckle/run1" 3 MoreSamples.running_ledger)
    as (prefixes & l1 & summary & l2 & Hrun & Hpre & _ & _ & Hend & Hcount
        & _).
  - intros n _. unfold MoreSamples.counter_format.
    match goal with
    | |- (if ?c then _ else _) = _ =>
        replace c with true by (vm_compute; reflexivity)
    end.
    reflexivity.
  - reflexivity.
  - reflexivity.
  - vm_compute. discriminate.
  - reflexivity.
  - exists l1, summary, l2. split; [|split; [exact Hend | exact Hcount]].
    rewrite Hrun, Hpre. vm_compute. reflexivity.
Defined.

(** ** Names of the ledger *)

(** X9.  While a scan is running the ledger is frozen: assigning any
    value to [investigation] or to [experiment] and starting another
    scan all raise [RuntimeError] and leave the ledger, the file system
    included, exactly as it was. *)
Theorem running_ledger_is_frozen (data_path : string)
    (os_makedirs : FS -> string -> FS) (l : ScanLedger.ledger) :
  Manager._running (ScanLedger.manager l) = true ->
  (forall v, exists msg,
     Manager.set_investigation v (ScanLedger.manager l)
     = (Raise (RuntimeError msg), ScanLedger.manager l)) /\
  (forall v, exists msg,
     Manager.set_experiment data_path os_makedirs v (ScanLedger.manager l)
     = (Raise (RuntimeError msg), ScanLedger.manager l)) /\
  (forall label today, exists msg,
     ScanLedger.start_scan data_path os_makedirs label today l
     = (Raise (RuntimeError msg), l)).
Proof.
  intros Hrun. split; [|split].
  - intros [v|]; unfold Manager.set_investigation; [rewrite Hrun|]; eauto.
  - intros [v|]; unfold Manager.set_experiment; [rewrite Hrun|]; eauto.
  - intros label today. unfold ScanLedger.start_scan. rewrite Hrun. eauto.
Qed.

Lemma running_ledger_is_frozen_witness :
  Manager._running (ScanLedger.manager MoreSamples.running_ledger) = true /\
  exists msg,
    Manager.set_experiment Samples.data_path Samples.makedirs (Some "run2")
      (ScanLedger.manager MoreSamples.running_ledger)
    = (Raise (RuntimeError msg), ScanLedger.manager MoreSamples.running_ledger).
Proof.
  split; [reflexivity|].
  destruct (running_ledger_is_frozen Samples.data_path Samples.makedirs
              MoreSamples.running_ledger eq_refl) as (_ & Hexp & _).
  exact (Hexp (Some "run2")).
Defined.

Lemma valid_char_not_sep (c : ascii) :
  bool_decide (c ∈ String.list_ascii_of_string Manager._VALID_CHAR) = true ->
  c <> "/"%char.
Proof. intros H ->. vm_compute in H. discriminate H. Qed.

Lemma valid_name_no_leading_sep (v : string) :
  Manager._valid_name v = true -> String.prefix "/" v = false.
Proof.
  destruct v as [|c v]; [reflexivity|]. unfold Manager._valid_name.
  cbn [String.list_ascii_of_string forallb]. intros H.
  apply andb_true_iff in H as [Hc _]. apply valid_char_not_sep in Hc.
  cbn [String.prefix]. destruct (Ascii.ascii_dec _ c) as [<-|_]; done.
Qed.

Lemma valid_name_no_trailing_sep (v : string) :
  Manager._valid_name v = true -> endswith_sep v = false.
Proof.
  unfold Manager._valid_name, endswith_sep. intros H.
  destruct (last (String.list_ascii_of_string v)) as [c|] eqn:Hlast;
    [|reflexivity].
  apply bool_decide_eq_false_2, valid_char_not_sep.
  rewrite forallb_forall in H. apply H.
  apply list_elem_of_In. apply last_Some in Hlast as [l' ->].
  apply elem_of_app. right. by left.
Qed.

(** X10.  Names accepted by the two setters contain no path separator,
    so once both are assigned the experiment path is the investigation
    name, a separator and the experiment name; the empty name is
    accepted too, and an empty investigation name leaves the experiment
    name alone as the path. *)
Theorem valid_names_path (data_path : string)
    (os_makedirs : FS -> string -> FS) (s : Manager.state) (v e : string) :
  Manager._running s = false ->
  Manager._valid_name v = true -> Manager._valid_name e = true ->
  exists s1 s2,
    Manager.set_investigation (Some v) s = (Ok (), s1) /\
    Manager.set_experiment data_path os_makedirs (Some e) s1 = (Ok (), s2) /\
    Manager.path s2
    = Ok (if decide (v = "") then e else v +:+ "/" +:+ e).
Proof.
  intros Hrun Hv He.
  assert (Hjoin : os_path_join v e
                  = if decide (v = "") then e else v +:+ "/" +:+ e).
  { unfold os_path_join. rewrite (valid_name_no_leading_sep e He).
    rewrite (valid_name_no_trailing_sep v Hv), orb_false_r.
    destruct (decide (v = "")) as [->|Hne].
    - reflexivity.
    - by rewrite bool_decide_eq_false_2. }
  rewrite <- Hjoin. clear Hjoin.
  unfold Manager.set_investigation. rewrite Hrun, Hv.
  cbn [negb]. cbv zeta.
  match goal with
  | |- exists s1 s2, (_, ?t) = (_, s1) /\ _ => set (s1 := t); exists s1
  end.
  assert (Hset : exists s2,
            Manager.set_experiment data_path os_makedirs (Some e) s1
            = (Ok (), s2) /\
            Manager.path s2 = Ok (os_path_join v e)).
  { unfold Manager.set_experiment.
    change (Manager._running s1) with (Manager._running s). rewrite Hrun.
    change (Manager.investigation s1) with (Some v). cbv iota.
    rewrite He. cbn [negb]. unfold Manager._check_path.
    match goal with
    | |- context [Manager.path ?s1'] =>
        change (Manager.path s1') with (Ok (os_path_join v e) : res string)
    end.
    cbv iota beta.
    destruct (os_path_exists _ _); eexists; split; reflexivity. }
  destruct Hset as (s2 & Hs2 & Hp2). exists s2. done.
Qed.

Lemma valid_names_path_witness :
  Manager._running Samples.manager = false /\
  Manager._valid_name "long_branch" = true /\
  Manager._valid_name "run-2:b" = true /\
  Manager._valid_name "a/b" = false /\
  exists s1 s2,
    Manager.set_investigation (Some "long_branch") Samples.manager
    = (Ok (), s1) /\
    Manager.set_experiment Samples.data_path Samples.makedirs
      (Some "run-2:b") s1 = (Ok (), s2) /\
    Manager.path s2 = Ok "long_branch/run-2:b".
Proof.
  split; [reflexivity|]. split; [vm_compute; reflexivity|].
  split; [vm_compute; reflexivity|]. split; [vm_compute; reflexivity|].
  apply (valid_names_path Samples.data_path Samples.makedirs Samples.manager
           "long_branch" "run-2:b").
  - reflexivity.
  - vm_compute. reflexivity.
  - vm_compute. reflexivity.
Defined.

(** ** Collecting the metadata of a request *)

Section Collect.
Import Manager Registry.

Lemma collect_spec (req : list (string * nat))
    (acc : gmap string (gmap string pyval))
    (times : gmap string Q) (s : state) :
  NoDup req.*1 ->
  exists acc' s',
    collect req acc times s = (acc', s') /\
    (forall src m,
       acc' !! src = Some m <->
       fetched_for s req src m \/
       ((forall m', ~ fetched_for s req src m') /\ acc !! src = Some m)) /\
    logger s'
    = logger s
      ++ map (fun e => late_warning e.1)
             (filter (fun e => pending s e.2 = true) req) /\
    threads s' = threads s /\ requests s' = requests s.
Proof.
  revert acc times s.
  induction req as [|[src h] rest IH]; intros acc times s Hnodup.
  - exists acc, s. split; [reflexivity|]. split.
    + intros src m. split.
      * intros H. right. split; [|done].
        intros m' (h & r & Hin & _). by apply elem_of_nil in Hin.
      * intros [(h & r & Hin & _)|[_ H]]; [by apply elem_of_nil in Hin|done].
    + cbn. by rewrite app_nil_r.
  - rewrite fmap_cons in Hnodup. apply NoDup_cons in Hnodup as [Hnotin Hnodup].
    cbn [fst] in Hnotin.
    assert (Hrest_src : forall h', (src, h') ∈ rest -> False).
    { intros h' Hin. apply Hnotin. apply list_elem_of_fmap.
      by exists (src, h'). }
    cbn [collect].
    destruct (threads s !! h) as [[src'|[r|]]|] eqn:Hh.
    + (* still running *)
      destruct (IH acc times (log (late_warning src).1 (late_warning src).2 s)
                  Hnodup)
        as (acc' & s' & Hrun & Hacc & Hlog & Hthr & Hreq).
      exists acc', s'. split; [exact Hrun|]. split; [|split; [|done]].
      * intros src0 m. rewrite Hacc. unfold fetched_for. cbn [threads log].
        split.
        -- intros [(h0 & r0 & Hin & Hf & Hm)|[Hno Ha]].
           ++ left. exists h0, r0. split; [by right|done].
           ++ right. split; [|done].
              intros m' (h0 & r0 & [Heq|Hin]%elem_of_cons & Hf & Hm).
              ** injection Heq as -> ->. congruence.
              ** apply (Hno m'). eauto.
        -- intros [(h0 & r0 & [Heq|Hin]%elem_of_cons & Hf & Hm)|[Hno Ha]].
           ++ injection Heq as -> ->. congruence.
           ++ left. eauto.
           ++ right. split; [|done].
              intros m' (h0 & r0 & Hin & Hf & Hm).
              apply (Hno m'). exists h0, r0. split; [by right|done].
      * rewrite Hlog. cbn [logger log]. rewrite filter_cons.
        cbn [snd]. rewrite decide_True by (unfold pending; by rewrite Hh).
        cbn [map fst].
        rewrite <- app_assoc. reflexivity.
    + (* finished with a result *)
      destruct (IH (<[src := meta r]> acc) (<[src := time r]> times) s Hnodup)
        as (acc' & s' & Hrun & Hacc & Hlog & Hthr & Hreq).
      exists acc', s'. split; [exact Hrun|]. split; [|split; [|done]].
      * intros src0 m. rewrite Hacc. unfold fetched_for. split.
        -- intros [(h0 & r0 & Hin & Hf & Hm)|[Hno Ha]].
           ++ left. exists h0, r0. split; [by right|done].
           ++ destruct (decide (src0 = src)) as [->|Hne].
              ** rewrite lookup_insert_eq in Ha. injection Ha as <-.
                 left. exists h, r. split; [by left|done].
              ** rewrite lookup_insert_ne in Ha by done.
                 right. split; [|done].
                 intros m' (h0 & r0 & [Heq|Hin]%elem_of_cons & Hf & Hm).
                 --- injection Heq as -> ->. done.
                 --- apply (Hno m'). eauto.
        -- intros [(h0 & r0 & [Heq|Hin]%elem_of_cons & Hf & Hm)|[Hno Ha]].
           ++ injection Heq as -> ->. right. split.
              ** intros m' (h1 & r1 & Hin & _). by apply (Hrest_src h1).
              ** rewrite lookup_insert_eq. congruence.
           ++ left. eauto.
           ++ right. assert (src0 <> src) as Hne.
              { intros ->. apply (Hno (meta r)). exists h, r.
                split; [by left|done]. }
              split.
              ** intros m' (h0 & r0 & Hin & Hf & Hm).
                 apply (Hno m'). exists h0, r0. split; [by right|done].
              ** by rewrite lookup_insert_ne.
      * rewrite Hlog. rewrite filter_cons.
        cbn [snd]. rewrite decide_False by (unfold pending; by rewrite Hh).
        reflexivity.
    + (* finished without result *)
      destruct (IH acc times s Hnodup)
        as (acc' & s' & Hrun & Hacc & Hlog & Hthr & Hreq).
      exists acc', s'. split; [exact Hrun|]. split; [|split; [|done]].
      * intros src0 m. rewrite Hacc. unfold fetched_for. split.
        -- intros [(h0 & r0 & Hin & Hf & Hm)|[Hno Ha]].
           ++ left. exists h0, r0. split; [by right|done].
           ++ right. split; [|done].
              intros m' (h0 & r0 & [Heq|Hin]%elem_of_cons & Hf & Hm).
              ** injection Heq as -> ->. congruence.
              ** apply (Hno m'). eauto.
        -- intros [(h0 & r0 & [Heq|Hin]%elem_of_cons & Hf & Hm)|[Hno Ha]].
           ++ injection Heq as -> ->. congruence.
           ++ left. eauto.
           ++ right. split; [|done].
              intros m' (h0 & r0 & Hin & Hf & Hm).
              apply (Hno m'). exists h0, r0. split; [by right|done].
      * rewrite Hlog. rewrite filter_cons.
        cbn [snd]. rewrite decide_False by (unfold pending; by rewrite Hh).
        reflexivity.
    + (* no such future *)
      destruct (IH acc times (log (late_warning src).1 (late_warning src).2 s)
                  Hnodup)
        as (acc' & s' & Hrun & Hacc & Hlog & Hthr & Hreq).
      exists acc', s'. split; [exact Hrun|]. split; [|split; [|done]].
      * intros src0 m. rewrite Hacc. unfold fetched_for. cbn [threads log].
        split.
        -- intros [(h0 & r0 & Hin & Hf & Hm)|[Hno Ha]].
           ++ left. exists h0, r0. split; [by right|done].
           ++ right. split; [|done].
              intros m' (h0 & r0 & [Heq|Hin]%elem_of_cons & Hf & Hm).
              ** injection Heq as -> ->. congruence.
              ** apply (Hno m'). eauto.
        -- intros [(h0 & r0 & [Heq|Hin]%elem_of_cons & Hf & Hm)|[Hno Ha]].
           ++ injection Heq as -> ->. congruence.
           ++ left. eauto.
           ++ right. split; [|done].
              intros m' (h0 & r0 & Hin & Hf & Hm).
              apply (Hno m'). exists h0, r0. split; [by right|done].
      * rewrite Hlog. cbn [logger log]. rewrite filter_cons.
        cbn [snd]. rewrite decide_True by (unfold pending; by rewrite Hh).
        cbn [map fst].
        rewrite <- app_assoc. reflexivity.
Qed.
End Collect.

(** X11 ([return_meta], src/manager.py 180-201).  For a known request
    ID whose request holds each source once, [return_meta] returns the
    metadata of exactly the sources whose fetch has finished with a
    result, logs one warning for every source whose fetch has not
    finished, in the order of the request, and removes the ID. *)
Theorem return_meta_collects_finished (request_ID : option string)
    (req : Manager.request) (s : Manager.state) :
  Manager.requests s !! request_ID = Some req ->
  NoDup req.*1 ->
  exists agg s',
    Manager.return_meta request_ID s = (Ok agg, s') /\
    (forall src m, agg !! src = Some m <-> Registry.fetched_for s req src m) /\
    Manager.logger s'
    = Manager.logger s
      ++ map (fun e => Manager.late_warning e.1)
             (filter (fun e => Registry.pending s e.2 = true) req) /\
    Manager.requests s' = delete request_ID (Manager.requests s).
Proof.
  intros Hreq Hnodup. unfold Manager.return_meta. rewrite Hreq.
  destruct (collect_spec req ∅ ∅
              (Manager.set_requests
                 (delete request_ID (Manager.requests s)) s) Hnodup)
    as (agg & s' & Hrun & Hagg & Hlog & _ & Hrq).
  cbv zeta. rewrite Hrun. exists agg, s'. split; [reflexivity|].
  split; [|split].
  - intros src m. rewrite Hagg. split.
    + intros [H|[_ H]]; [exact H|]. by rewrite lookup_empty in H.
    + intros H. left. exact H.
  - exact Hlog.
  - exact Hrq.
Qed.

Lemma return_meta_collects_finished_witness :
  exists agg s',
    Manager.return_meta (Some "snap") MoreSamples.half_fetched = (Ok agg, s') /\
    (forall src m,
       agg !! src = Some m <->
       Registry.fetched_for MoreSamples.half_fetched
         [("manager", 0%nat); ("xspectrum", 1%nat)] src m) /\
    Manager.logger s'
    = Manager.logger MoreSamples.half_fetched
      ++ map (fun e => Manager.late_warning e.1)
             (filter (fun e => Registry.pending MoreSamples.half_fetched e.2
                               = true)
                     [("manager", 0%nat); ("xspectrum", 1%nat)]) /\
    Manager.requests s'
    = delete (Some "snap") (Manager.requests MoreSamples.half_fetched).
Proof.
  apply (return_meta_collects_finished (Some "snap")
           [("manager", 0%nat); ("xspectrum", 1%nat)]
           MoreSamples.half_fetched).
  - vm_compute. reflexivity.
  - apply (bool_decide_unpack _). vm_compute. reflexivity.
Defined.

(** ** A request whose fetches all finish *)

Lemma spawn_all_handles (sources : list string) (s : Manager.state) :
  (fst (Manager.spawn_all sources s)).*2
  = seq (Manager.next_thread s) (length sources).
Proof.
  revert s. induction sources as [|src rest IH]; intros s; [reflexivity|].
  cbn [Manager.spawn_all]. unfold Manager.spawn at 1. cbv zeta.
  specialize (IH (Manager.set_threads
                    (<[Manager.next_thread s := Manager.Running src]>
                       (Manager.threads s))
                    (S (Manager.next_thread s)) s)).
  destruct (Manager.spawn_all rest _) as [r s2] eqn:Hrest.
  cbn [fst] in IH |- *. rewrite fmap_cons. cbn [snd length seq].
  f_equal. exact IH.
Qed.

Lemma finish_all_spec (req : list (string * nat))
    (reply : string -> gmap string pyval) (dt : Q) (s : Manager.state) :
  NoDup req.*2 ->
  (forall src h, (src, h) ∈ req ->
     Manager.threads s !! h = Some (Manager.Running src) /\
     src ∈ Manager.clients s) ->
  (forall src h, (src, h) ∈ req ->
     Manager.threads (Registry.finish_all req reply dt s) !! h
     = Some (Manager.Finished
               (Some {| Manager.meta := reply src; Manager.time := dt |}))) /\
  (forall h, h ∉ req.*2 ->
     Manager.threads (Registry.finish_all req reply dt s) !! h
     = Manager.threads s !! h) /\
  Manager.requests (Registry.finish_all req reply dt s) = Manager.requests s /\
  Manager.clients (Registry.finish_all req reply dt s) = Manager.clients s /\
  Manager.logger (Registry.finish_all req reply dt s)
  = Manager.logger s ++ map (fun e => Registry.completed e.1) req.
Proof.
  revert s. induction req as [|[src h] rest IH]; intros s Hnodup Hall.
  - cbn. split; [|by rewrite app_nil_r].
    intros src h Hin. by apply elem_of_nil in Hin.
  - rewrite fmap_cons in Hnodup. cbn [snd] in Hnodup.
    apply NoDup_cons in Hnodup as [Hnotin Hnodup].
    destruct (Hall src h) as [Hh Hcl]; [by left|].
    unfold Registry.finish_all. cbn [foldl fst snd].
    fold (Registry.finish_all rest reply dt
            (Manager.finish h (reply src) dt s)).
    assert (Hfin : Manager.finish h (reply src) dt s
      = Manager.set_threads
          (<[h := Manager.Finished
                    (Some {| Manager.meta := reply src;
                             Manager.time := dt |})]> (Manager.threads s))
          (Manager.next_thread s)
          (Manager.log DEBUG (src +:+ " : metadata collection completed") s)).
    { unfold Manager.finish. rewrite Hh. unfold Manager.fetch_meta.
      rewrite bool_decide_eq_true_2 by exact Hcl. reflexivity. }
    rewrite Hfin. clear Hfin.
    set (s1 := Manager.set_threads _ _ _).
    destruct (IH s1 Hnodup) as (Hdone & Hother & Hrq & Hcls & Hlog).
    { intros src' h' Hin. destruct (Hall src' h') as [Hh' Hcl']; [by right|].
      split; [|exact Hcl'].
      subst s1. cbn [Manager.threads Manager.set_threads].
      rewrite lookup_insert_ne; [exact Hh'|].
      intros ->. apply Hnotin. apply list_elem_of_fmap. by exists (src', h'). }
    split; [|split; [|split; [|split]]].
    + intros src' h' [Heq|Hin]%elem_of_cons.
      * injection Heq as -> ->. rewrite Hother by exact Hnotin.
        subst s1. cbn [Manager.threads Manager.set_threads].
        by rewrite lookup_insert_eq.
      * by apply Hdone.
    + intros h' Hh'. rewrite fmap_cons in Hh'. cbn [snd] in Hh'.
      apply not_elem_of_cons in Hh' as [Hne Hh'].
      rewrite Hother by exact Hh'.
      subst s1. cbn [Manager.threads Manager.set_threads].
      by rewrite lookup_insert_ne.
    + rewrite Hrq. reflexivity.
    + rewrite Hcls. reflexivity.
    + rewrite Hlog. subst s1.
      cbn [Manager.logger Manager.set_threads Manager.log map fst].
      rewrite <- app_assoc. reflexivity.
Qed.

Lemma filter_none {A} (P : A -> Prop) `{forall x, Decision (P x)}
    (l : list A) :
  (forall x, x ∈ l -> ~ P x) -> filter P l = [].
Proof.
  induction l as [|x l IH]; intros Hall; [reflexivity|].
  rewrite filter_cons. rewrite decide_False by (apply Hall; by left).
  apply IH. intros y Hy. apply Hall. by right.
Qed.

(** X12 ([request_meta], [fetch_meta], [return_meta], src/manager.py
    147-201).  When every fetch started by [request_meta] finishes before
    [return_meta] is called with the same ID, the result holds, for each
    client that is not excluded and for no other name, what that client
    answered; [return_meta] logs nothing and the ID is gone. *)
Theorem request_fetch_return_round_trip (request_ID : option string)
    (exclude_list : list string) (reply : string -> gmap string pyval)
    (dt : Q) (s : Manager.state) :
  NoDup (Manager.clients s) ->
  exists s1 req agg s3,
    Manager.request_meta request_ID exclude_list s = (Ok (), s1) /\
    Manager.requests s1 !! request_ID = Some req /\
    Manager.return_meta request_ID (Registry.finish_all req reply dt s1)
    = (Ok agg, s3) /\
    (forall src m,
       agg !! src = Some m <->
       src ∈ Manager.clients s /\ src ∉ exclude_list /\ m = reply src) /\
    Manager.logger s3
    = Manager.logger (Registry.finish_all req reply dt s1) /\
    Manager.logger (Registry.finish_all req reply dt s1)
    = Manager.logger s1
      ++ map Registry.completed
             (filter (fun src => src ∉ exclude_list) (Manager.clients s)) /\
    Manager.requests s3 !! request_ID = None.
Proof.
  intros Hclients. unfold Manager.request_meta.
  set (s0 := match Manager.requests s !! request_ID with
             | Some _ => _
             | None => s
             end).
  assert (Hcl0 : Manager.clients s0 = Manager.clients s).
  { subst s0. by destruct (Manager.requests s !! request_ID). }
  pose proof (spawn_all_handles
                (filter (fun src => src ∉ exclude_list) (Manager.clients s0))
                s0) as Hhandles.
  destruct (spawn_all_spec
              (filter (fun src => src ∉ exclude_list) (Manager.clients s0))
              s0)
    as (r & s2 & Hrun & Hnames & Hthr & _ & _ & Hrq & Hcl & Hlog).
  rewrite Hrun in Hhandles |- *. cbn [fst] in Hhandles.
  set (s1 := Manager.set_requests (<[request_ID := r]> (Manager.requests s2))
                                  s2).
  assert (Hnd2 : NoDup r.*2) by (rewrite Hhandles; apply NoDup_seq).
  assert (Hnd1 : NoDup r.*1).
  { rewrite Hnames, Hcl0. by apply NoDup_filter. }
  assert (Hsrc : forall src, src ∈ r.*1
                 <-> src ∈ Manager.clients s /\ src ∉ exclude_list).
  { intros src. rewrite Hnames, Hcl0, list_elem_of_filter. tauto. }
  destruct (finish_all_spec r reply dt s1 Hnd2)
    as (Hdone & _ & HrqF & _ & HlogF).
  { intros src h Hin. destruct (Hthr src h Hin) as [Hh _].
    split; [exact Hh|].
    change (Manager.clients s1) with (Manager.clients s2).
    rewrite Hcl, Hcl0. apply Hsrc. apply list_elem_of_fmap.
    by exists (src, h). }
  exists s1, r.
  set (sF := Registry.finish_all r reply dt s1) in *.
  assert (Hlook : Manager.requests sF !! request_ID = Some r).
  { rewrite HrqF. subst s1. cbn [Manager.requests Manager.set_requests].
    by rewrite lookup_insert_eq. }
  unfold Manager.return_meta. rewrite Hlook.
  destruct (collect_spec r ∅ ∅
              (Manager.set_requests
                 (delete request_ID (Manager.requests sF)) sF) Hnd1)
    as (agg & s3 & Hcol & Hagg & Hlog3 & _ & Hrq3).
  cbv zeta. rewrite Hcol. exists agg, s3.
  split; [reflexivity|]. split.
  { subst s1. cbn [Manager.requests Manager.set_requests].
    by rewrite lookup_insert_eq. }
  split; [reflexivity|]. split; [|split; [|split]].
  - intros src m. rewrite Hagg. split.
    + intros [(h & r0 & Hin & Hf & Hm)|[_ H]];
        [|by rewrite lookup_empty in H].
      change (Manager.threads sF !! h
              = Some (Manager.Finished (Some r0))) in Hf.
      rewrite (Hdone src h Hin) in Hf. injection Hf as <-.
      cbn [Manager.meta] in Hm.
      assert (src ∈ r.*1) as Hin1.
      { apply list_elem_of_fmap. by exists (src, h). }
      apply Hsrc in Hin1 as [? ?]. done.
    + intros (Hin & Hex & ->).
      assert (src ∈ r.*1) as Hin1 by (apply Hsrc; done).
      apply list_elem_of_fmap in Hin1 as ([src' h] & Heq & Hin1).
      cbn [fst] in Heq. subst src'.
      left. exists h, {| Manager.meta := reply src; Manager.time := dt |}.
      split; [exact Hin1|]. split; [|reflexivity].
      exact (Hdone src h Hin1).
  - rewrite Hlog3. rewrite filter_none.
    + cbn [map]. by rewrite app_nil_r.
    + intros [src h] Hin. cbn [snd]. unfold Registry.pending.
      change (Manager.threads (Manager.set_requests _ sF))
        with (Manager.threads sF).
      by rewrite (Hdone src h Hin).
  - rewrite HlogF. f_equal. rewrite <- Hcl0, <- Hnames.
    rewrite <- list_fmap_compose. reflexivity.
  - rewrite Hrq3. cbn [Manager.requests Manager.set_requests].
    by rewrite lookup_delete_eq.
Qed.

Lemma request_fetch_return_round_trip_witness :
  exists s1 req agg s3,
    Manager.request_meta (Some "snap") ["manager"] Samples.coordinator
    = (Ok (), s1) /\
    Manager.requests s1 !! Some "snap" = Some req /\
    Manager.return_meta (Some "snap")
      (Registry.finish_all req MoreSamples.reply 1 s1)
    = (Ok agg, s3) /\
    (forall src m,
       agg !! src = Some m <->
       src ∈ Manager.clients Samples.coordinator /\ src ∉ ["manager"] /\
       m = MoreSamples.reply src) /\
    Manager.logger s3
    = Manager.logger (Registry.finish_all req MoreSamples.reply 1 s1) /\
    Manager.logger (Registry.finish_all req MoreSamples.reply 1 s1)
    = Manager.logger s1
      ++ map Registry.completed
             (filter (fun src => src ∉ ["manager"])
                     (Manager.clients Samples.coordinator)) /\
    Manager.requests s3 !! Some "snap" = None.
Proof.
  apply (request_fetch_return_round_trip (Some "snap") ["manager"]
           MoreSamples.reply 1 Samples.coordinator).
  apply (bool_decide_unpack _). vm_compute. reflexivity.
Defined.
